(** * AI student planner, web client: HTTP wrapper, token storage, state
    stores and page handlers.

    A shallow embedding of the client sources (the axios wrapper with its two
    interceptors, the token helpers, the zustand stores and the handlers of
    the upload and dashboard pages), followed by the properties the written
    specification states about them. *)

From stdpp Require Import gmap strings list fin_maps pretty.
From Stdlib Require Import ZArith Lia.

Local Open Scope string_scope.
Local Open Scope Z_scope.
Local Open Scope list_scope.

(** ** JavaScript values

    Whatever the server sends is [any] to the client.  Values of that kind
    are kept as JSON trees; the three JavaScript notions the sources rely on
    are spelled out: property access, truthiness (for [if (x)], [!x] and
    [x || y]) and the string conversion of template literals and of
    [localStorage.setItem].  Numbers that travel through the client are
    integral identifiers and counters; no arithmetic is done on them. *)
Module Js.

#[warnings="-register-all"]
Inductive Json : Type :=
| JUndefined
| JNull
| JBool (b : bool)
| JNum (n : Z)
| JStr (s : string)
| JArr (elements : list Json)
| JObj (members : list (string * Json)).

Fixpoint assoc (key : string) (members : list (string * Json)) : Json :=
  match members with
  | [] => JUndefined
  | (k, v) :: rest => if decide (k = key) then v else assoc key rest
  end.

(** [value.key] on a value that is not [null] or [undefined] (on those,
    [value?.key]): a primitive or an array has none of the properties the
    sources read. *)
Definition field (key : string) (value : Json) : Json :=
  match value with
  | JObj members => assoc key members
  | _ => JUndefined
  end.

Definition truthy_string (s : string) : bool :=
  match s with
  | EmptyString => false
  | String _ _ => true
  end.

(** [value === undefined || value === null]: reading a property of such a
    value, or destructuring it, throws a [TypeError]. *)
Definition nullish (value : Json) : bool :=
  match value with
  | JUndefined | JNull => true
  | _ => false
  end.

Definition truthy (value : Json) : bool :=
  match value with
  | JUndefined | JNull => false
  | JBool b => b
  | JNum n => negb (n =? 0)
  | JStr s => truthy_string s
  | JArr _ | JObj _ => true
  end.

(** [a || b] *)
Definition or_else (a b : Json) : Json := if truthy a then a else b.

Definition join (sep : string) (parts : list string) : string :=
  match parts with
  | [] => ""
  | p :: ps => fold_left (fun acc q => acc +:+ sep +:+ q) ps p
  end.

(** [String(value)], as applied by template literals and by the storage
    when it is handed a non-string. *)
Fixpoint to_string (value : Json) : string :=
  match value with
  | JUndefined => "undefined"
  | JNull => "null"
  | JBool true => "true"
  | JBool false => "false"
  | JNum n => pretty n
  | JStr s => s
  | JArr elements =>
      join ","
        (map (fun e => match e with
                       | JUndefined | JNull => ""
                       | _ => to_string e
                       end) elements)
  | JObj _ => "[object Object]"
  end.

(** A JavaScript object used as a record of properties. *)
Abbreviation Obj := (gmap string Json).

(** [{ ...a, ...b }]: the properties of [b] win. *)
Definition spread (a b : Obj) : Obj := b ∪ a.

End Js.
Import Js.

(** ** localStorage

    The browser's persistent key-value store.  Beside its items the model
    keeps a journal of the calls made on it, so that the keys a piece of code
    touches can be read off. *)
Module LocalStorage.

Inductive access : Type :=
| Read (key : string)
| Written (key value : string)
| Removed (key : string).

Definition key_of (a : access) : string :=
  match a with
  | Read k | Written k _ | Removed k => k
  end.

Record t : Type := mk {
  items : gmap string string;
  journal : list access
}.

Definition empty : t := {| items := ∅; journal := [] |}.

Definition getItem (key : string) (ls : t) : option string * t :=
  (items ls !! key,
   {| items := items ls; journal := journal ls ++ [Read key] |}).

Definition setItem (key value : string) (ls : t) : t :=
  {| items := <[key := value]> (items ls);
     journal := journal ls ++ [Written key value] |}.

Definition removeItem (key : string) (ls : t) : t :=
  {| items := delete key (items ls);
     journal := journal ls ++ [Removed key] |}.

(** The keys touched by the calls journalled after the first [n]. *)
Definition keys_since (n : nat) (ls : t) : list string :=
  key_of <$> drop n (journal ls).

End LocalStorage.

(** ** frontend/lib/auth.ts *)
Module AuthTs.
Import LocalStorage.

(** [window_defined] is [typeof window !== 'undefined']. *)
Definition getAuthToken (window_defined : bool) (ls : LocalStorage.t)
  : option string * LocalStorage.t :=
  if negb window_defined then (None, ls)
  else getItem "auth_token" ls.

Definition setAuthToken (window_defined : bool) (token : string)
    (ls : LocalStorage.t) : LocalStorage.t :=
  if negb window_defined then ls
  else setItem "auth_token" token ls.

End AuthTs.

(** ** types.ts

    The documents the stores hold.  A [Task] is merged with an update object
    of type [any], so it is kept as a JavaScript object; the other documents
    are records with the fields of their interfaces. *)
Module User.
Record t : Type := mk {
  id : Z;
  email : string;
  full_name : string;
  created_at : string
}.
End User.

Module Syllabus.
Record t : Type := mk {
  syllabus_id : Z;
  filename : string;
  is_processed : bool;
  parsed_data : Json;
  raw_text : option string;
  processing_error : option string;
  created_at : string
}.
End Syllabus.

Abbreviation Task := Obj.

Module WeekPlan.
Record t : Type := mk {
  week_number : Z;
  start_date : string;
  end_date : string;
  tasks : list Task;
  notes : option string
}.
End WeekPlan.

Module StudyPlan.
Record t : Type := mk {
  title : string;
  description : option string;
  weeks : list WeekPlan.t;
  total_study_hours : option Z;
  preferences : Json;
  metadata : Json
}.
End StudyPlan.

Module Plan.
Record t : Type := mk {
  plan_id : Z;
  title : string;
  description : option string;
  status : string;
  plan_data : StudyPlan.t;
  created_at : string;
  updated_at : option string;
  version_number : Z
}.
End Plan.

(** Reading a value of type [any] at a declared type, as TypeScript lets the
    sources do without a check.  The embedding is parametric in these
    readings. *)
Class Cast (T : Type) : Type := cast : Json -> T.

(** ** The part of axios the wrapper relies on

    A request is described by its internal configuration; the response
    interceptor marks a configuration it has already retried with [_retry].
    With the default [validateStatus] a reply settles the request as
    fulfilled when its status is 2xx and as rejected otherwise; a request
    that gets no reply at all is rejected with an error that has no
    [response]. *)
Module Axios.

Inductive Method : Type := GET | POST | PUT | DELETE.

Record File : Type := mkFile {
  name : string;
  size : Z
}.

Inductive Body : Type :=
| NoBody
| JsonBody (fields : Obj)
| FormData (file : File).

Abbreviation Headers := (gmap string string).

Record InternalAxiosRequestConfig : Type := mkConfig {
  method : Method;
  url : string;
  headers : option Headers;
  data : Body;
  _retry : bool
}.

Definition with_headers (h : option Headers)
    (c : InternalAxiosRequestConfig) : InternalAxiosRequestConfig :=
  {| method := method c; url := url c; headers := h; data := data c;
     _retry := _retry c |}.

Definition with_retry (flag : bool)
    (c : InternalAxiosRequestConfig) : InternalAxiosRequestConfig :=
  {| method := method c; url := url c; headers := headers c; data := data c;
     _retry := flag |}.

Module Response.
Record t : Type := mk {
  status : Z;
  data : Json
}.
End Response.

Record AxiosError : Type := mkError {
  config : InternalAxiosRequestConfig;
  response : option Response.t
}.

(** What a [catch] clause of the client can receive. *)
Inductive Thrown : Type :=
| Failure (error : AxiosError)
| TypeError.

Inductive Settled (A : Type) : Type :=
| Fulfilled (value : A)
| Rejected (reason : Thrown).
Arguments Fulfilled {A} value.
Arguments Rejected {A} reason.

Definition validateStatus (status : Z) : bool :=
  (200 <=? status) && (status <? 300).

End Axios.
Import Axios.

(** ** The browser and the network around the client

    Every request that leaves the client is appended to [wire]; the reply is
    a function of everything sent so far, which covers any server and any
    network failure.  [ViaApi] requests went through the configured instance
    [api], [ViaAxios] requests through plain [axios]. *)
Inductive NetEvent : Type :=
| ViaApi (config : InternalAxiosRequestConfig)
| ViaAxios (config : InternalAxiosRequestConfig).

Inductive Reply : Type :=
| NetworkError
| Replied (response : Response.t).

Record World : Type := mkWorld {
  localStorage : LocalStorage.t;
  location_href : string;
  wire : list NetEvent;
  server : list NetEvent -> Reply;
  NEXT_PUBLIC_API_URL : option string
}.

Definition with_localStorage (ls : LocalStorage.t) (w : World) : World :=
  {| localStorage := ls; location_href := location_href w; wire := wire w;
     server := server w; NEXT_PUBLIC_API_URL := NEXT_PUBLIC_API_URL w |}.

Definition with_location_href (href : string) (w : World) : World :=
  {| localStorage := localStorage w; location_href := href; wire := wire w;
     server := server w; NEXT_PUBLIC_API_URL := NEXT_PUBLIC_API_URL w |}.

Definition transmit (w : World) (request : NetEvent) : World * Reply :=
  let sent := wire w ++ [request] in
  ({| localStorage := localStorage w; location_href := location_href w;
      wire := sent; server := server w;
      NEXT_PUBLIC_API_URL := NEXT_PUBLIC_API_URL w |},
   server w sent).

Definition settle (config : InternalAxiosRequestConfig) (reply : Reply)
  : Settled Response.t :=
  match reply with
  | NetworkError => Rejected (Failure {| config := config; response := None |})
  | Replied r =>
      if validateStatus (Response.status r) then Fulfilled r
      else Rejected (Failure {| config := config; response := Some r |})
  end.

(** Storage calls made from code that runs in the browser. *)
Definition localStorage_getItem (key : string) (w : World)
  : option string * World :=
  let '(value, ls) := LocalStorage.getItem key (localStorage w) in
  (value, with_localStorage ls w).

Definition localStorage_setItem (key value : string) (w : World) : World :=
  with_localStorage (LocalStorage.setItem key value (localStorage w)) w.

Definition localStorage_removeItem (key : string) (w : World) : World :=
  with_localStorage (LocalStorage.removeItem key (localStorage w)) w.

(** ** src/lib/api.ts: the configured instance and its interceptors *)
Module Api.

Definition API_BASE_URL (w : World) : string :=
  match NEXT_PUBLIC_API_URL w with
  | Some configured =>
      if truthy_string configured then configured else "http://localhost:8000"
  | None => "http://localhost:8000"
  end.

(** The headers [axios.create] was given. *)
Definition instance_headers : Headers :=
  {[ "Content-Type" := "application/json" ]}.

(** Plain [axios.post(url, body)]: no interceptor is involved; for an object
    body axios itself sets the JSON content type. *)
Definition axios_post (w : World) (url : string) (body : Obj)
  : World * Settled Response.t :=
  let config :=
    {| method := POST; url := url; headers := Some instance_headers;
       data := JsonBody body; _retry := false |} in
  let '(w, reply) := transmit w (ViaAxios config) in
  (w, settle config reply).

(** Request interceptor: add the stored access token to the request. *)
Definition request_interceptor (w : World) (config : InternalAxiosRequestConfig)
  : World * InternalAxiosRequestConfig :=
  let '(token, w) := localStorage_getItem "access_token" w in
  match token, headers config with
  | Some token, Some h =>
      if truthy_string token
      then (w, with_headers (Some (<["Authorization" := "Bearer " +:+ token]> h))
                            config)
      else (w, config)
  | _, _ => (w, config)
  end.

Definition status_is_401 (error : AxiosError) : bool :=
  match response error with
  | Some r => Response.status r =? 401
  | None => false
  end.

(** The [catch (refreshError)] block of the response interceptor. *)
Definition refresh_failed (w : World) (refreshError : Thrown)
  : World * Settled Response.t :=
  let w := localStorage_removeItem "access_token" w in
  let w := localStorage_removeItem "refresh_token" w in
  let w := with_location_href "/login" w in
  (w, Rejected refreshError).

(** Response interceptor, rejection handler.  [api] is the instance itself,
    called for the retry; its result is returned without being awaited, so a
    rejection of the retry does not reach the [catch] block.  [error.config]
    and [originalRequest] are one object: the error that is finally rejected
    carries the [_retry] mark. *)
Definition response_rejected
    (api : World -> InternalAxiosRequestConfig ->
           option (World * Settled Response.t))
    (w : World) (error : AxiosError) : option (World * Settled Response.t) :=
  let originalRequest := config error in
  if status_is_401 error && negb (_retry originalRequest) then
    let originalRequest := with_retry true originalRequest in
    let error := {| config := originalRequest; response := response error |} in
    let '(refreshToken, w) := localStorage_getItem "refresh_token" w in
    match refreshToken with
    | Some refreshToken =>
        if truthy_string refreshToken then
          let '(w, refreshed) :=
            axios_post w (API_BASE_URL w +:+ "/auth/refresh")
                       {[ "refresh_token" := JStr refreshToken ]} in
          match refreshed with
          | Fulfilled response =>
              if nullish (Response.data response)
              then Some (refresh_failed w TypeError)
              else
                let access_token := field "access_token" (Response.data response) in
                let w := localStorage_setItem "access_token"
                                              (to_string access_token) w in
                let originalRequest :=
                  match headers originalRequest with
                  | Some h =>
                      with_headers
                        (Some (<["Authorization" :=
                                   "Bearer " +:+ to_string access_token]> h))
                        originalRequest
                  | None => originalRequest
                  end in
                api w originalRequest
          | Rejected refreshError => Some (refresh_failed w refreshError)
          end
        else Some (w, Rejected (Failure error))
    | None => Some (w, Rejected (Failure error))
    end
  else Some (w, Rejected (Failure error)).

(** [api(config)]: request interceptor, transmission, response interceptor.
    The instance calls itself for the retry; [fuel] bounds the depth of those
    calls and [None] means the bound was reached. *)
Fixpoint api_fuel (fuel : nat) (w : World) (config : InternalAxiosRequestConfig)
  : option (World * Settled Response.t) :=
  match fuel with
  | O => None
  | S fuel =>
      let '(w, config) := request_interceptor w config in
      let '(w, reply) := transmit w (ViaApi config) in
      match settle config reply with
      | Fulfilled response => Some (w, Fulfilled response)
      | Rejected (Failure error) => response_rejected (api_fuel fuel) w error
      | Rejected TypeError => Some (w, Rejected TypeError)
      end
  end.

(** Two levels are all a call can use (see [api_fuel_enough]). *)
Definition api (w : World) (config : InternalAxiosRequestConfig)
  : World * Settled Response.t :=
  match api_fuel 2 w config with
  | Some outcome => outcome
  | None => (w, Rejected TypeError)
  end.

Definition request (m : Method) (u : string) (extra : Headers) (body : Body)
  : InternalAxiosRequestConfig :=
  {| method := m; url := u; headers := Some (extra ∪ instance_headers);
     data := body; _retry := false |}.

(** [(await api.<method>(...)).data] *)
Definition data_of (outcome : World * Settled Response.t)
  : World * Settled Json :=
  match outcome with
  | (w, Fulfilled response) => (w, Fulfilled (Response.data response))
  | (w, Rejected reason) => (w, Rejected reason)
  end.

Module authAPI.

Definition signup (w : World) (email password full_name : string)
  : World * Settled Json :=
  data_of (api w (request POST "/auth/signup" ∅
                    (JsonBody {[ "email" := JStr email;
                                 "password" := JStr password;
                                 "full_name" := JStr full_name ]}))).

Definition login (w : World) (email password : string) : World * Settled Json :=
  match api w (request POST "/auth/login" ∅
                 (JsonBody {[ "email" := JStr email;
                              "password" := JStr password ]})) with
  | (w, Fulfilled response) =>
      if nullish (Response.data response) then (w, Rejected TypeError)
      else
        let access_token := field "access_token" (Response.data response) in
        let refresh_token := field "refresh_token" (Response.data response) in
        let w := localStorage_setItem "access_token" (to_string access_token) w in
        let w := localStorage_setItem "refresh_token" (to_string refresh_token) w in
        (w, Fulfilled (Response.data response))
  | (w, Rejected reason) => (w, Rejected reason)
  end.

Definition logout (w : World) : World :=
  let w := localStorage_removeItem "access_token" w in
  localStorage_removeItem "refresh_token" w.

Definition getCurrentUser (w : World) : World * Settled Json :=
  data_of (api w (request GET "/auth/me" ∅ NoBody)).

End authAPI.

Module syllabusAPI.

Definition upload (w : World) (file : File) : World * Settled Json :=
  data_of (api w (request POST "/syllabus/upload"
                    {[ "Content-Type" := "multipart/form-data" ]}
                    (FormData file))).

Definition getAll (w : World) : World * Settled Json :=
  data_of (api w (request GET "/syllabus/" ∅ NoBody)).

Definition getById (w : World) (id : Z) : World * Settled Json :=
  data_of (api w (request GET ("/syllabus/" +:+ pretty id) ∅ NoBody)).

Definition delete (w : World) (id : Z) : World * Settled Json :=
  data_of (api w (request DELETE ("/syllabus/" +:+ pretty id) ∅ NoBody)).

End syllabusAPI.

Module plansAPI.

Definition generate (w : World) (syllabusId : Json) (preferences : Obj)
  : World * Settled Json :=
  data_of (api w (request POST "/plans/generate" ∅
                    (JsonBody (spread {[ "syllabus_id" := syllabusId ]}
                                      preferences)))).

Definition getAll (w : World) : World * Settled Json :=
  data_of (api w (request GET "/plans/" ∅ NoBody)).

Definition getProgress (w : World) (id : Z) : World * Settled Json :=
  data_of (api w (request GET ("/plans/" +:+ pretty id +:+ "/progress") ∅
                    NoBody)).

Definition updateTask (w : World) (planId : Z) (taskId : string) (data : Obj)
  : World * Settled Json :=
  data_of (api w (request PUT
                    ("/plans/" +:+ pretty planId +:+ "/tasks/" +:+ taskId) ∅
                    (JsonBody data))).

Definition getById (w : World) (id : Z) : World * Settled Json :=
  data_of (api w (request GET ("/plans/" +:+ pretty id) ∅ NoBody)).

Definition delete (w : World) (id : Z) : World * Settled Json :=
  data_of (api w (request DELETE ("/plans/" +:+ pretty id) ∅ NoBody)).

End plansAPI.

Module feedbackAPI.

Definition submit (w : World) (data : Obj) : World * Settled Json :=
  data_of (api w (request POST "/feedback/submit" ∅ (JsonBody data))).

Definition getByPlan (w : World) (planId : Z) : World * Settled Json :=
  data_of (api w (request GET ("/feedback/plan/" +:+ pretty planId) ∅ NoBody)).

Definition getStats (w : World) (planId : Z) : World * Settled Json :=
  data_of (api w (request GET ("/feedback/plan/" +:+ pretty planId
                               +:+ "/stats") ∅ NoBody)).

End feedbackAPI.

End Api.

(** ** src/lib/store.ts

    A zustand store holds one state object; [set(partial)] assigns the
    properties of [partial] onto it, one after the other, and leaves the
    rest alone.  The auth store is wrapped in [persist]: after every [set]
    the wrapper writes the state object, as JSON text, to the local storage
    under the store's name, [auth-storage].  The text is [JSON.stringify] of
    the state and is taken as given ([stringify]); reading the key back when
    the page loads is outside the calls embedded here.  The interface store
    is wrapped the same way under [ui-storage]; its functions below give the
    state each call leaves. *)
Module AuthStore.

Record AuthState : Type := mk {
  user : option User.t;
  isAuthenticated : bool;
  isLoading : bool
}.

Inductive property : Type :=
| user_is (u : option User.t)
| isAuthenticated_is (b : bool)
| isLoading_is (b : bool).

Definition assign (state : AuthState) (p : property) : AuthState :=
  match p with
  | user_is u =>
      {| user := u; isAuthenticated := isAuthenticated state;
         isLoading := isLoading state |}
  | isAuthenticated_is b =>
      {| user := user state; isAuthenticated := b; isLoading := isLoading state |}
  | isLoading_is b =>
      {| user := user state; isAuthenticated := isAuthenticated state;
         isLoading := b |}
  end.

Definition set (partial : list property) (state : AuthState) : AuthState :=
  fold_left assign partial state.

Definition initial : AuthState :=
  {| user := None; isAuthenticated := false; isLoading := false |}.

(** The text [persist] stores for a state. *)
Class Stringify : Type := stringify : AuthState -> string.

(** What [persist] does after a [set] that left [state]. *)
Definition persist `{!Stringify} (state : AuthState) (w : World) : World :=
  localStorage_setItem "auth-storage" (stringify state) w.

(** The state [setUser] leaves ([!!user] for [user : User | null]); the
    write that [persist] adds to the call is in [perform]. *)
Definition setUser (u : option User.t) (state : AuthState) : AuthState :=
  set [user_is u; isAuthenticated_is (bool_decide (is_Some u))] state.

Definition logout `{!Stringify} (w : World) (state : AuthState)
  : World * AuthState :=
  let w := localStorage_removeItem "access_token" w in
  let w := localStorage_removeItem "refresh_token" w in
  let state := set [user_is None; isAuthenticated_is false] state in
  (persist state w, state).

(** What the pages can do to the store. *)
Inductive call : Type :=
| call_setUser (u : option User.t)
| call_logout.

Definition perform `{!Stringify} (w : World) (state : AuthState) (c : call)
  : World * AuthState :=
  match c with
  | call_setUser u => (persist (setUser u state) w, setUser u state)
  | call_logout => logout w state
  end.

Fixpoint perform_all `{!Stringify} (w : World) (state : AuthState)
    (calls : list call) : World * AuthState :=
  match calls with
  | [] => (w, state)
  | c :: rest =>
      let '(w, state) := perform w state c in perform_all w state rest
  end.

End AuthStore.

Module PlanStore.

Record PlanState : Type := mk {
  currentPlan : option Plan.t;
  plans : list Plan.t;
  syllabi : list Syllabus.t
}.

Inductive property : Type :=
| currentPlan_is (p : option Plan.t)
| plans_is (ps : list Plan.t)
| syllabi_is (ss : list Syllabus.t).

Definition assign (state : PlanState) (p : property) : PlanState :=
  match p with
  | currentPlan_is p =>
      {| currentPlan := p; plans := plans state; syllabi := syllabi state |}
  | plans_is ps =>
      {| currentPlan := currentPlan state; plans := ps; syllabi := syllabi state |}
  | syllabi_is ss =>
      {| currentPlan := currentPlan state; plans := plans state; syllabi := ss |}
  end.

Definition set (partial : list property) (state : PlanState) : PlanState :=
  fold_left assign partial state.

(** [set((state) => ...)] *)
Definition set_with (updater : PlanState -> list property) (state : PlanState)
  : PlanState :=
  set (updater state) state.

(** The state object itself, handed back as a partial. *)
Definition properties (state : PlanState) : list property :=
  [currentPlan_is (currentPlan state); plans_is (plans state);
   syllabi_is (syllabi state)].

Definition initial : PlanState :=
  {| currentPlan := None; plans := []; syllabi := [] |}.

Definition setCurrentPlan (plan : option Plan.t) : PlanState -> PlanState :=
  set [currentPlan_is plan].

Definition setPlans (ps : list Plan.t) : PlanState -> PlanState :=
  set [plans_is ps].

Definition setSyllabi (ss : list Syllabus.t) : PlanState -> PlanState :=
  set [syllabi_is ss].

Definition addPlan (plan : Plan.t) : PlanState -> PlanState :=
  set_with (fun state => [plans_is (plan :: plans state)]).

(** [task.id === taskId] *)
Definition has_id (taskId : string) (task : Task) : bool :=
  match task !! "id" with
  | Some (JStr id) => bool_decide (id = taskId)
  | _ => false
  end.

Definition update_tasks (taskId : string) (updates : Obj) (tasks : list Task)
  : list Task :=
  (fun task => if has_id taskId task then spread task updates else task)
    <$> tasks.

Definition update_week (taskId : string) (updates : Obj) (week : WeekPlan.t)
  : WeekPlan.t :=
  {| WeekPlan.week_number := WeekPlan.week_number week;
     WeekPlan.start_date := WeekPlan.start_date week;
     WeekPlan.end_date := WeekPlan.end_date week;
     WeekPlan.tasks := update_tasks taskId updates (WeekPlan.tasks week);
     WeekPlan.notes := WeekPlan.notes week |}.

Definition with_weeks (weeks : list WeekPlan.t) (planData : StudyPlan.t)
  : StudyPlan.t :=
  {| StudyPlan.title := StudyPlan.title planData;
     StudyPlan.description := StudyPlan.description planData;
     StudyPlan.weeks := weeks;
     StudyPlan.total_study_hours := StudyPlan.total_study_hours planData;
     StudyPlan.preferences := StudyPlan.preferences planData;
     StudyPlan.metadata := StudyPlan.metadata planData |}.

Definition with_plan_data (planData : StudyPlan.t) (plan : Plan.t) : Plan.t :=
  {| Plan.plan_id := Plan.plan_id plan;
     Plan.title := Plan.title plan;
     Plan.description := Plan.description plan;
     Plan.status := Plan.status plan;
     Plan.plan_data := planData;
     Plan.created_at := Plan.created_at plan;
     Plan.updated_at := Plan.updated_at plan;
     Plan.version_number := Plan.version_number plan |}.

Definition updateTask (taskId : string) (updates : Obj)
  : PlanState -> PlanState :=
  set_with (fun state =>
    match currentPlan state with
    | None => properties state
    | Some currentPlan =>
        let updatedPlan := currentPlan in
        let planData := Plan.plan_data updatedPlan in
        let planData :=
          with_weeks (update_week taskId updates <$> StudyPlan.weeks planData)
                     planData in
        let updatedPlan := with_plan_data planData updatedPlan in
        [currentPlan_is (Some updatedPlan)]
    end).

End PlanStore.

Module UIStore.

Inductive Theme : Type := light | dark.

Record UIState : Type := mk {
  sidebarOpen : bool;
  theme : Theme
}.

Inductive property : Type :=
| sidebarOpen_is (b : bool)
| theme_is (t : Theme).

Definition assign (state : UIState) (p : property) : UIState :=
  match p with
  | sidebarOpen_is b => {| sidebarOpen := b; theme := theme state |}
  | theme_is t => {| sidebarOpen := sidebarOpen state; theme := t |}
  end.

Definition set (partial : list property) (state : UIState) : UIState :=
  fold_left assign partial state.

Definition initial : UIState := {| sidebarOpen := true; theme := light |}.

Definition toggleSidebar (state : UIState) : UIState :=
  set [sidebarOpen_is (negb (sidebarOpen state))] state.

Definition setSidebarOpen (open : bool) : UIState -> UIState :=
  set [sidebarOpen_is open].

Definition setTheme (t : Theme) : UIState -> UIState :=
  set [theme_is t].

End UIStore.

(** ** The client as the pages see it: browser and network, the plan store
    and the routes pushed on the router. *)
Record Client : Type := mkClient {
  world : World;
  planStore : PlanStore.PlanState;
  pushed : list string
}.

Definition with_world (w : World) (c : Client) : Client :=
  {| world := w; planStore := planStore c; pushed := pushed c |}.

Definition with_planStore (s : PlanStore.PlanState) (c : Client) : Client :=
  {| world := world c; planStore := s; pushed := pushed c |}.

Definition router_push (route : string) (c : Client) : Client :=
  {| world := world c; planStore := planStore c;
     pushed := pushed c ++ [route] |}.

(** [err.response?.data?.detail || fallback] *)
Definition detail_of (err : Thrown) : Json :=
  match err with
  | Failure e =>
      match response e with
      | Some r =>
          if nullish (Response.data r) then JUndefined
          else field "detail" (Response.data r)
      | None => JUndefined
      end
  | TypeError => JUndefined
  end.

Definition message_of (err : Thrown) (fallback : string) : Json :=
  or_else (detail_of err) (JStr fallback).

(** ** src/app/upload/page.tsx *)
Module UploadPage.

Record State : Type := mk {
  file : option File;
  uploading : bool;
  parsing : bool;
  generating : bool;
  syllabusId : Json;
  parsedData : Json;
  error : Json;
  studyHours : Z;
  selectedDays : list string
}.

Definition initial : State :=
  {| file := None; uploading := false; parsing := false; generating := false;
     syllabusId := JNull; parsedData := JNull; error := JStr "";
     studyHours := 3;
     selectedDays := ["monday"; "tuesday"; "wednesday"; "thursday"; "friday"] |}.

Definition setFile (f : option File) (s : State) : State :=
  {| file := f; uploading := uploading s; parsing := parsing s;
     generating := generating s; syllabusId := syllabusId s;
     parsedData := parsedData s; error := error s; studyHours := studyHours s;
     selectedDays := selectedDays s |}.

Definition setUploading (b : bool) (s : State) : State :=
  {| file := file s; uploading := b; parsing := parsing s;
     generating := generating s; syllabusId := syllabusId s;
     parsedData := parsedData s; error := error s; studyHours := studyHours s;
     selectedDays := selectedDays s |}.

Definition setParsing (b : bool) (s : State) : State :=
  {| file := file s; uploading := uploading s; parsing := b;
     generating := generating s; syllabusId := syllabusId s;
     parsedData := parsedData s; error := error s; studyHours := studyHours s;
     selectedDays := selectedDays s |}.

Definition setGenerating (b : bool) (s : State) : State :=
  {| file := file s; uploading := uploading s; parsing := parsing s;
     generating := b; syllabusId := syllabusId s;
     parsedData := parsedData s; error := error s; studyHours := studyHours s;
     selectedDays := selectedDays s |}.

Definition setSyllabusId (v : Json) (s : State) : State :=
  {| file := file s; uploading := uploading s; parsing := parsing s;
     generating := generating s; syllabusId := v;
     parsedData := parsedData s; error := error s; studyHours := studyHours s;
     selectedDays := selectedDays s |}.

Definition setParsedData (v : Json) (s : State) : State :=
  {| file := file s; uploading := uploading s; parsing := parsing s;
     generating := generating s; syllabusId := syllabusId s;
     parsedData := v; error := error s; studyHours := studyHours s;
     selectedDays := selectedDays s |}.

Definition setError (v : Json) (s : State) : State :=
  {| file := file s; uploading := uploading s; parsing := parsing s;
     generating := generating s; syllabusId := syllabusId s;
     parsedData := parsedData s; error := v; studyHours := studyHours s;
     selectedDays := selectedDays s |}.

Definition setSelectedDays (days : list string) (s : State) : State :=
  {| file := file s; uploading := uploading s; parsing := parsing s;
     generating := generating s; syllabusId := syllabusId s;
     parsedData := parsedData s; error := error s; studyHours := studyHours s;
     selectedDays := days |}.

Definition setStudyHours (hours : Z) (s : State) : State :=
  {| file := file s; uploading := uploading s; parsing := parsing s;
     generating := generating s; syllabusId := syllabusId s;
     parsedData := parsedData s; error := error s; studyHours := hours;
     selectedDays := selectedDays s |}.

(** [files] is [e.target.files]: [None] when the input has no file list. *)
Definition handleFileChange (files : option (list File)) (page : State)
  : State :=
  match files with
  | Some (f :: _) => setError (JStr "") (setFile (Some f) page)
  | _ => page
  end.

(** [files] is [e.dataTransfer.files]; [preventDefault] has no effect on the
    state. *)
Definition handleDrop (files : option (list File)) (page : State) : State :=
  match files with
  | Some (f :: _) => setError (JStr "") (setFile (Some f) page)
  | _ => page
  end.

(** [prev.includes(day)] and [prev.filter(d => d !== day)] *)
Definition includes (day : string) (days : list string) : bool :=
  bool_decide (day ∈ days).

Definition toggleDay (day : string) (page : State) : State :=
  setSelectedDays
    (if includes day (selectedDays page)
     then List.filter (fun d => negb (bool_decide (d = day))) (selectedDays page)
     else selectedDays page ++ [day])
    page.

Section handlers.
Context `{!Cast (list Syllabus.t), !Cast Plan.t}.

(** [handleUpload] up to its first [await]: what the page shows while the
    upload is in flight. *)
Definition handleUpload_start (page : State) : State :=
  setError (JStr "") (setParsing true (setUploading true page)).

Definition handleUpload_finally (page : State) : State :=
  setParsing false (setUploading false page).

Definition handleUpload (c : Client) (page : State) : Client * State :=
  match file page with
  | None => (c, page)
  | Some file =>
      let page := handleUpload_start page in
      let '(c, page) :=
        match Api.syllabusAPI.upload (world c) file with
        | (w, Rejected err) =>
            (with_world w c, setError (message_of err "Upload failed") page)
        | (w, Fulfilled response) =>
            let c := with_world w c in
            if nullish response
            then (c, setError (message_of TypeError "Upload failed") page)
            else
              let page := setSyllabusId (field "syllabus_id" response) page in
              let page := setParsedData (field "parsed_data" response) page in
              match Api.syllabusAPI.getAll (world c) with
              | (w, Rejected err) =>
                  (with_world w c,
                   setError (message_of err "Upload failed") page)
              | (w, Fulfilled syllabiRes) =>
                  let c := with_world w c in
                  if nullish syllabiRes
                  then (c, setError (message_of TypeError "Upload failed") page)
                  else
                    (with_planStore
                       (PlanStore.setSyllabi
                          (cast (or_else (field "syllabi" syllabiRes) (JArr [])))
                          (planStore c)) c,
                     page)
              end
        end in
      (c, handleUpload_finally page)
  end.

Definition handleGeneratePlan_start (page : State) : State :=
  setError (JStr "") (setGenerating true page).

Definition handleGeneratePlan (c : Client) (page : State) : Client * State :=
  if negb (truthy (syllabusId page)) then (c, page)
  else
    let page := handleGeneratePlan_start page in
    let '(c, page) :=
      match Api.plansAPI.generate (world c) (syllabusId page)
              {[ "study_hours_per_day" := JNum (studyHours page);
                 "study_days" := JArr (JStr <$> selectedDays page) ]} with
      | (w, Rejected err) =>
          (with_world w c,
           setError (message_of err "Plan generation failed") page)
      | (w, Fulfilled plan) =>
          let c := with_world w c in
          let c := with_planStore (PlanStore.addPlan (cast plan) (planStore c)) c in
          (router_push "/dashboard" c, page)
      end in
    (c, setGenerating false page).

End handlers.

(** The upload card: the drop zone while no file is chosen, otherwise the
    file with the Upload & Parse button. *)
Inductive UploadCard : Type :=
| DropZone
| Chosen (file_name : string) (button_disabled : bool) (analyzing_label : bool)
         (spinner : bool).

Record View : Type := mkView {
  upload_card : UploadCard;
  analyzed_card : bool;
  generate_button_disabled : option bool;
  error_banner : option Json
}.

(** What the page renders from its state.  [None]: the visitor is not
    authenticated, the page pushes the login route and renders nothing. *)
Definition render (isAuthenticated : bool) (page : State) : option View :=
  if negb isAuthenticated then None
  else Some
    {| upload_card :=
         match file page with
         | None => DropZone
         | Some f => Chosen (name f) (uploading page) (uploading page)
                            (parsing page)
         end;
       analyzed_card := truthy (parsedData page);
       generate_button_disabled :=
         if truthy (syllabusId page)
         then Some (generating page
                    || bool_decide (length (selectedDays page) = 0%nat))
         else None;
       error_banner :=
         if truthy (error page) then Some (error page) else None |}.

End UploadPage.

(** ** src/app/dashboard/page.tsx *)
Module DashboardPage.

Record State : Type := mk {
  loading : bool;
  progress : Json;
  updatingTask : option string;
  selectedTask : option Task;
  isModalOpen : bool
}.

Definition setProgress (v : Json) (s : State) : State :=
  {| loading := loading s; progress := v; updatingTask := updatingTask s;
     selectedTask := selectedTask s; isModalOpen := isModalOpen s |}.

Definition setUpdatingTask (t : option string) (s : State) : State :=
  {| loading := loading s; progress := progress s; updatingTask := t;
     selectedTask := selectedTask s; isModalOpen := isModalOpen s |}.

Definition setSelectedTask (t : option Task) (s : State) : State :=
  {| loading := loading s; progress := progress s;
     updatingTask := updatingTask s; selectedTask := t;
     isModalOpen := isModalOpen s |}.

Definition setIsModalOpen (b : bool) (s : State) : State :=
  {| loading := loading s; progress := progress s;
     updatingTask := updatingTask s; selectedTask := selectedTask s;
     isModalOpen := b |}.

Definition handleTaskClick (task : Task) (page : State) : State :=
  setIsModalOpen true (setSelectedTask (Some task) page).

(** [handleTaskSave] up to its first [await]: the state the PUT request
    leaves from.  The handler reads [currentPlan] as its render saw it in the
    store; only its [plan_id] is used afterwards, which [updateTask] keeps. *)
Definition handleTaskSave_start (taskId : string) (updates : Obj)
    (c : Client) (page : State) : Client * State :=
  (with_planStore (PlanStore.updateTask taskId updates (planStore c)) c,
   setUpdatingTask (Some taskId) page).

Definition handleTaskSave (c : Client) (page : State) (taskId : string)
    (updates : Obj) : Client * State :=
  match PlanStore.currentPlan (planStore c) with
  | None => (c, page)
  | Some currentPlan =>
      let '(c, page) := handleTaskSave_start taskId updates c page in
      let '(c, page) :=
        match Api.plansAPI.updateTask (world c) (Plan.plan_id currentPlan)
                taskId updates with
        | (w, Rejected _) => (with_world w c, page)
        | (w, Fulfilled _) =>
            match Api.plansAPI.getProgress w (Plan.plan_id currentPlan) with
            | (w, Rejected _) => (with_world w c, page)
            | (w, Fulfilled prog) => (with_world w c, setProgress prog page)
            end
        end in
      (c, setUpdatingTask None page)
  end.

(** [array.slice(start, end)] for indices within [0, length]. *)
Definition slice {A : Type} (start stop : nat) (l : list A) : list A :=
  take (stop - start) (drop start l).

Record PlanCard : Type := mkCard {
  card_title : string;
  card_description : option string;
  weeks_badge : nat;
  week_sections : list WeekPlan.t
}.

(** The study-plan part of the page; [None] is the empty state. *)
Definition render_plan (currentPlan : option Plan.t) : option PlanCard :=
  match currentPlan with
  | Some currentPlan =>
      Some {| card_title := Plan.title currentPlan;
              card_description := Plan.description currentPlan;
              weeks_badge :=
                length (StudyPlan.weeks (Plan.plan_data currentPlan));
              week_sections :=
                slice 0 4 (StudyPlan.weeks (Plan.plan_data currentPlan)) |}
  | None => None
  end.

End DashboardPage.

(** ** src/components/TaskModal.tsx

    The modal keeps its form in state of its own.  The initial values are
    read from the task the modal is mounted with and are not read again when
    another task is passed in; the dashboard mounts it before any task is
    selected.  [onSave] and [onClose] are the dashboard's [handleTaskSave]
    and [() => setIsModalOpen(false)]. *)
Module TaskModal.

Record State : Type := mk {
  status : Json;
  actualDuration : Json;
  difficulty : Json;
  notes : Json;
  saving : bool
}.

(** [task?.key] *)
Definition prop (key : string) (task : option Task) : Json :=
  match task with
  | Some t => default JUndefined (t !! key)
  | None => JUndefined
  end.

Definition initial (task : option Task) : State :=
  {| status := or_else (prop "status" task) (JStr "pending");
     actualDuration := or_else (prop "actual_duration_minutes" task) (JNum 0);
     difficulty := prop "difficulty" task;
     notes := or_else (prop "notes" task) (JStr "");
     saving := false |}.

Definition setSaving (b : bool) (s : State) : State :=
  {| status := status s; actualDuration := actualDuration s;
     difficulty := difficulty s; notes := notes s; saving := b |}.

Definition setStatus (v : Json) (s : State) : State :=
  {| status := v; actualDuration := actualDuration s;
     difficulty := difficulty s; notes := notes s; saving := saving s |}.

Definition setNotes (v : Json) (s : State) : State :=
  {| status := status s; actualDuration := actualDuration s;
     difficulty := difficulty s; notes := v; saving := saving s |}.

(** The object [handleSave] hands to [onSave]. *)
Definition updates (s : State) : Obj :=
  {[ "status" := status s;
     "actual_duration_minutes" := or_else (actualDuration s) JUndefined;
     "difficulty" := or_else (difficulty s) JUndefined;
     "notes" := or_else (notes s) JUndefined ]}.

(** [handleSave] for the task shown, whose [id] is the string [taskId].
    [handleTaskSave] catches what its requests throw, so the awaited [onSave]
    is always fulfilled and [onClose] follows. *)
Definition handleSave (taskId : string) (c : Client)
    (page : DashboardPage.State) (modal : State)
  : Client * DashboardPage.State * State :=
  let modal := setSaving true modal in
  let '(c, page) := DashboardPage.handleTaskSave c page taskId (updates modal) in
  let page := DashboardPage.setIsModalOpen false page in
  (c, page, setSaving false modal).

End TaskModal.

(** ** The landing page ([HomePage]): the route it pushes. *)
Module HomePage.

Definition redirect (isAuthenticated : bool) : string :=
  if isAuthenticated then "/dashboard" else "/login".

End HomePage.

(** ** Observations used to state the properties *)

(** The value stored under a key. *)
Definition stored (key : string) (w : World) : option string :=
  LocalStorage.items (localStorage w) !! key.

(** The storage calls journalled between two states of the world. *)
Definition touched_keys (before after : World) : list string :=
  LocalStorage.keys_since (length (LocalStorage.journal (localStorage before)))
                          (localStorage after).

(** The requests sent between two states of the world. *)
Definition sent_between (before after : World) : list NetEvent :=
  drop (length (wire before)) (wire after).

(** The request of a call as it leaves the client on the first attempt, and
    the reply it gets. *)
Definition first_request (w : World) (config : InternalAxiosRequestConfig)
  : InternalAxiosRequestConfig :=
  snd (Api.request_interceptor w config).

Definition first_reply (w : World) (config : InternalAxiosRequestConfig)
  : Reply :=
  server w (wire w ++ [ViaApi (first_request w config)]).

(** The refresh request for a stored refresh token, and the reply it gets
    when it follows the first attempt. *)
Definition refresh_request (w : World) (refreshToken : string)
  : InternalAxiosRequestConfig :=
  {| method := POST; url := Api.API_BASE_URL w +:+ "/auth/refresh";
     headers := Some Api.instance_headers;
     data := JsonBody {[ "refresh_token" := JStr refreshToken ]};
     _retry := false |}.

Definition refresh_reply (w : World) (config : InternalAxiosRequestConfig)
    (refreshToken : string) : Reply :=
  server w (wire w ++ [ViaApi (first_request w config);
                       ViaAxios (refresh_request w refreshToken)]).

Definition is_refresh (request : NetEvent) : bool :=
  match request with
  | ViaAxios _ => true
  | ViaApi _ => false
  end.

Definition is_api_request (request : NetEvent) : bool :=
  match request with
  | ViaApi _ => true
  | ViaAxios _ => false
  end.

(** The [Authorization] header of a request, if any. *)
Definition authorization (config : InternalAxiosRequestConfig)
  : option string :=
  match headers config with
  | Some h => h !! "Authorization"
  | None => None
  end.

Definition token_keys : list string := ["access_token"; "refresh_token"].

(** The request the response interceptor retries once the refresh has
    brought [token]. *)
Definition retried_request (w : World) (config : InternalAxiosRequestConfig)
    (token : string) : InternalAxiosRequestConfig :=
  let originalRequest := with_retry true (first_request w config) in
  match headers originalRequest with
  | Some h =>
      with_headers (Some (<["Authorization" := "Bearer " +:+ token]> h))
                   originalRequest
  | None => originalRequest
  end.

(** How the refresh can fail: the POST is rejected, or it is fulfilled with a
    body that cannot be destructured. *)
Definition refresh_fails (w : World) (config : InternalAxiosRequestConfig)
    (refreshToken : string) (reason : Thrown) : Prop :=
  let outcome :=
    settle (refresh_request w refreshToken)
           (refresh_reply w config refreshToken) in
  outcome = Rejected reason
  \/ exists body, outcome = Fulfilled body /\
                  nullish (Response.data body) = true /\ reason = TypeError.

(** The four courses a call of the instance can take, each with what it
    leaves behind: the requests sent, the stored items, the calls
    journalled by the storage, the location of the browser and the settled
    outcome. *)
Inductive course (w : World) (config : InternalAxiosRequestConfig)
    (w' : World) (outcome : Settled Response.t) : Prop :=
| course_final :
    outcome = settle (first_request w config) (first_reply w config) ->
    (forall r, first_reply w config = Replied r ->
               Response.status r = 401 -> _retry config = true) ->
    wire w' = wire w ++ [ViaApi (first_request w config)] ->
    LocalStorage.items (localStorage w') = LocalStorage.items (localStorage w) ->
    LocalStorage.journal (localStorage w')
    = LocalStorage.journal (localStorage w)
      ++ [LocalStorage.Read "access_token"] ->
    location_href w' = location_href w ->
    course w config w' outcome
| course_no_refresh_token (r : Response.t) :
    first_reply w config = Replied r -> Response.status r = 401 ->
    _retry config = false ->
    (stored "refresh_token" w = None \/ stored "refresh_token" w = Some "") ->
    outcome
    = Rejected (Failure {| config := with_retry true (first_request w config);
                           response := Some r |}) ->
    wire w' = wire w ++ [ViaApi (first_request w config)] ->
    LocalStorage.items (localStorage w') = LocalStorage.items (localStorage w) ->
    LocalStorage.journal (localStorage w')
    = LocalStorage.journal (localStorage w)
      ++ [LocalStorage.Read "access_token";
          LocalStorage.Read "refresh_token"] ->
    location_href w' = location_href w ->
    course w config w' outcome
| course_refresh_failed (r : Response.t) (refreshToken : string)
    (reason : Thrown) :
    first_reply w config = Replied r -> Response.status r = 401 ->
    _retry config = false ->
    stored "refresh_token" w = Some refreshToken ->
    truthy_string refreshToken = true ->
    refresh_fails w config refreshToken reason ->
    outcome = Rejected reason ->
    wire w' = wire w ++ [ViaApi (first_request w config);
                         ViaAxios (refresh_request w refreshToken)] ->
    LocalStorage.items (localStorage w')
    = delete "refresh_token"
        (delete "access_token" (LocalStorage.items (localStorage w))) ->
    LocalStorage.journal (localStorage w')
    = LocalStorage.journal (localStorage w)
      ++ [LocalStorage.Read "access_token";
          LocalStorage.Read "refresh_token";
          LocalStorage.Removed "access_token";
          LocalStorage.Removed "refresh_token"] ->
    location_href w' = "/login" ->
    course w config w' outcome
| course_retried (r : Response.t) (refreshToken : string) (body : Response.t) :
    first_reply w config = Replied r -> Response.status r = 401 ->
    _retry config = false ->
    stored "refresh_token" w = Some refreshToken ->
    truthy_string refreshToken = true ->
    settle (refresh_request w refreshToken) (refresh_reply w config refreshToken)
    = Fulfilled body ->
    nullish (Response.data body) = false ->
    let token := to_string (field "access_token" (Response.data body)) in
    let again := retried_request w config token in
    outcome = settle again (server w (wire w')) ->
    wire w' = wire w ++ [ViaApi (first_request w config);
                         ViaAxios (refresh_request w refreshToken);
                         ViaApi again] ->
    LocalStorage.items (localStorage w')
    = <["access_token" := token]> (LocalStorage.items (localStorage w)) ->
    LocalStorage.journal (localStorage w')
    = LocalStorage.journal (localStorage w)
      ++ [LocalStorage.Read "access_token";
          LocalStorage.Read "refresh_token";
          LocalStorage.Written "access_token" token;
          LocalStorage.Read "access_token"] ->
    location_href w' = location_href w ->
    course w config w' outcome.

(** How many of the requests went through plain [axios] (the client has one
    such request, the refresh), and how many through the instance. *)
Definition refreshes (requests : list NetEvent) : nat :=
  length (List.filter is_refresh requests).

Definition api_requests (requests : list NetEvent) : nat :=
  length (List.filter is_api_request requests).

(** ** Sample browsers

    A server that answers the n-th request it receives with the n-th reply of
    a script and drops the connection once the script is used up, and a
    browser that starts with given stored items in front of such a server. *)
Definition scripted (replies : list Reply) (sent : list NetEvent) : Reply :=
  default NetworkError (replies !! (length sent - 1)%nat).

Definition browser (items : gmap string string) (replies : list Reply) : World :=
  {| localStorage := {| LocalStorage.items := items; LocalStorage.journal := [] |};
     location_href := "/dashboard"; wire := []; server := scripted replies;
     NEXT_PUBLIC_API_URL := None |}.

Definition reply (status : Z) (body : list (string * Json)) : Reply :=
  Replied {| Response.status := status; Response.data := JObj body |}.


(** The invariant of the auth store. *)
Definition authenticated_iff_user (state : AuthStore.AuthState) : Prop :=
  AuthStore.isAuthenticated state = true <-> is_Some (AuthStore.user state).

(** The current plan after [updateTask], seen from the plan before it. *)
Definition updated_plan (taskId : string) (updates : Obj) (plan : Plan.t)
  : Plan.t :=
  PlanStore.with_plan_data
    (PlanStore.with_weeks
       (PlanStore.update_week taskId updates
          <$> StudyPlan.weeks (Plan.plan_data plan))
       (Plan.plan_data plan))
    plan.

(** Readings of [any] used by the sample runs. *)
Definition no_syllabi : Cast (list Syllabus.t) := fun _ => [].

Definition blank_plan : Cast Plan.t := fun _ =>
  {| Plan.plan_id := 0; Plan.title := ""; Plan.description := None;
     Plan.status := "active";
     Plan.plan_data :=
       {| StudyPlan.title := ""; StudyPlan.description := None;
          StudyPlan.weeks := []; StudyPlan.total_study_hours := None;
          StudyPlan.preferences := JNull; StudyPlan.metadata := JNull |};
     Plan.created_at := ""; Plan.updated_at := None;
     Plan.version_number := 1 |}.

(** A plan of five weeks; the first week holds two tasks. *)
Definition sample_week (n : Z) (tasks : list Task) : WeekPlan.t :=
  {| WeekPlan.week_number := n; WeekPlan.start_date := "2025-01-06";
     WeekPlan.end_date := "2025-01-12"; WeekPlan.tasks := tasks;
     WeekPlan.notes := None |}.

Definition sample_plan : Plan.t :=
  {| Plan.plan_id := 7; Plan.title := "Algorithms"; Plan.description := None;
     Plan.status := "active";
     Plan.plan_data :=
       {| StudyPlan.title := "Algorithms"; StudyPlan.description := None;
          StudyPlan.weeks :=
            [sample_week 1
               [ {[ "id" := JStr "t1"; "status" := JStr "pending" ]};
                 {[ "id" := JStr "t2"; "status" := JStr "pending" ]} ];
             sample_week 2 []; sample_week 3 []; sample_week 4 [];
             sample_week 5 []];
          StudyPlan.total_study_hours := None;
          StudyPlan.preferences := JNull; StudyPlan.metadata := JNull |};
     Plan.created_at := "2025-01-01"; Plan.updated_at := None;
     Plan.version_number := 1 |}.

Definition sample_client (items : gmap string string) (replies : list Reply)
  : Client :=
  {| world := browser items replies;
     planStore := {| PlanStore.currentPlan := Some sample_plan;
                     PlanStore.plans := [sample_plan];
                     PlanStore.syllabi := [] |};
     pushed := [] |}.

Definition sample_dashboard : DashboardPage.State :=
  {| DashboardPage.loading := false; DashboardPage.progress := JNull;
     DashboardPage.updatingTask := None; DashboardPage.selectedTask := None;
     DashboardPage.isModalOpen := true |}.

Definition sample_file : File := {| name := "syllabus.pdf"; size := 2048 |}.

(** A header of a request, if any. *)
Definition header (key : string) (config : InternalAxiosRequestConfig)
  : option string :=
  match headers config with
  | Some h => h !! key
  | None => None
  end.

(** One task after [updateTask]. *)
Definition updated_task (taskId : string) (updates : Obj) (task : Task) : Task :=
  if PlanStore.has_id taskId task then spread task updates else task.

(** The tasks of a plan, week by week. *)
Definition tasks_of (plan : Plan.t) : list (list Task) :=
  WeekPlan.tasks <$> StudyPlan.weeks (Plan.plan_data plan).

(** * Properties *)

(** ** The HTTP wrapper *)
Section wrapper.
Import Api.

Implicit Types (w : World) (config : InternalAxiosRequestConfig).

Lemma request_interceptor_world w config :
  fst (request_interceptor w config)
  = with_localStorage
      (snd (LocalStorage.getItem "access_token" (localStorage w))) w.
Proof.
  unfold request_interceptor, localStorage_getItem. simpl.
  destruct (LocalStorage.items (localStorage w) !! "access_token") as [t|];
    [destruct (headers config); [destruct (truthy_string t)|]|]; reflexivity.
Qed.

Lemma request_interceptor_keeps config w :
  let sent := snd (request_interceptor w config) in
  method sent = method config /\ url sent = url config /\
  data sent = data config /\ _retry sent = _retry config.
Proof.
  unfold request_interceptor, localStorage_getItem. simpl.
  destruct (LocalStorage.items (localStorage w) !! "access_token") as [t|];
    [destruct (headers config); [destruct (truthy_string t)|]|]; simpl; auto.
Qed.

Lemma settle_cases config reply :
  (exists r, reply = Replied r /\ validateStatus (Response.status r) = true /\
             settle config reply = Fulfilled r)
  \/ (exists o, settle config reply
                = Rejected (Failure {| config := config; response := o |}) /\
                match o with
                | Some r => reply = Replied r /\
                            validateStatus (Response.status r) = false
                | None => reply = NetworkError
                end).
Proof.
  destruct reply as [|r]; simpl.
  - right. exists None. auto.
  - destruct (validateStatus (Response.status r)) eqn:V.
    + left. eauto.
    + right. exists (Some r). auto.
Qed.

(** A request that carries the [_retry] mark is sent once and its outcome is
    final. *)
Lemma api_fuel_marked fuel w config :
  _retry config = true ->
  api_fuel (S fuel) w config
  = Some (fst (transmit (fst (request_interceptor w config))
                        (ViaApi (snd (request_interceptor w config)))),
          settle (snd (request_interceptor w config))
                 (snd (transmit (fst (request_interceptor w config))
                                (ViaApi (snd (request_interceptor w config)))))).
Proof.
  intros Hmark. simpl.
  pose proof (request_interceptor_keeps config w) as (_ & _ & _ & Hr).
  destruct (request_interceptor w config) as [w1 sent]. simpl in *.
  destruct (settle_cases sent (server w1 (wire w1 ++ [ViaApi sent])))
    as [(r & _ & _ & ->)|(o & -> & _)]; [reflexivity|].
  unfold response_rejected. simpl. rewrite Hr, Hmark.
  rewrite andb_false_r. reflexivity.
Qed.

Local Arguments api_fuel : simpl never.

Lemma status_is_401_true (e : AxiosError) :
  status_is_401 e = true ->
  exists r, response e = Some r /\ Response.status r = 401.
Proof.
  unfold status_is_401. destruct (response e) as [r|]; [|discriminate].
  intros H. exists r. split; [reflexivity|]. apply Z.eqb_eq, H.
Qed.

Lemma request_interceptor_settled w (c : InternalAxiosRequestConfig) token :
  stored "access_token" w = Some token ->
  (forall h, headers c = Some h ->
             h !! "Authorization" = Some ("Bearer " +:+ token)) ->
  snd (request_interceptor w c) = c.
Proof.
  unfold stored, request_interceptor, localStorage_getItem. simpl.
  intros -> Hauth. destruct (headers c) as [h|] eqn:Hh; [|reflexivity].
  destruct (truthy_string token); [|reflexivity]. simpl.
  rewrite insert_id by auto. destruct c; simpl in *. subst. reflexivity.
Qed.

Lemma retried_request_marked w (c : InternalAxiosRequestConfig) token :
  _retry (retried_request w c token) = true.
Proof.
  unfold retried_request. simpl.
  destruct (headers (first_request w c)); reflexivity.
Qed.

Lemma retried_request_authorized w c token h :
  headers (retried_request w c token) = Some h ->
  h !! "Authorization" = Some ("Bearer " +:+ token).
Proof.
  unfold retried_request. simpl.
  destruct (headers (first_request w c)) as [h0|] eqn:Hh; simpl.
  - intros [= <-]. apply lookup_insert_eq.
  - rewrite Hh. discriminate.
Qed.

Lemma api_fuel_course fuel w config0 :
  (2 <= fuel)%nat ->
  exists w' outcome,
    api_fuel fuel w config0 = Some (w', outcome) /\
    server w' = server w /\
    NEXT_PUBLIC_API_URL w' = NEXT_PUBLIC_API_URL w /\
    course w config0 w' outcome.
Proof.
  intros Hfuel. destruct fuel as [|[|n]]; [lia|lia|clear Hfuel].
  change (api_fuel (S (S n)) w config0)
    with (let '(w1, sent) := request_interceptor w config0 in
          let '(w2, reply) := transmit w1 (ViaApi sent) in
          match settle sent reply with
          | Fulfilled response => Some (w2, Fulfilled response)
          | Rejected (Failure error) =>
              response_rejected (api_fuel (S n)) w2 error
          | Rejected TypeError => Some (w2, Rejected TypeError)
          end).
  pose proof (request_interceptor_world w config0) as Hw1.
  pose proof (request_interceptor_keeps config0 w) as (_ & _ & _ & Hr).
  cbn zeta in Hr.
  pose proof (eq_refl : first_request w config0 = snd (request_interceptor w config0)) as Hsent.
  pose proof (eq_refl : first_reply w config0 = server w (wire w ++ [ViaApi (first_request w config0)])) as Hreply.
  destruct (request_interceptor w config0) as [w1 sent]. simpl in Hw1, Hr, Hsent.
  subst w1 sent.
  cbn [transmit with_localStorage wire server localStorage location_href NEXT_PUBLIC_API_URL].
  rewrite <- Hreply. clear Hreply.
  set (sent := first_request w config0) in *.
  destruct (settle_cases sent (first_reply w config0))
    as [(r & Hrep & Hok & Hs)|(o & Hs & Ho)]; rewrite Hs.
  - eexists _, _. split; [reflexivity|]. split; [reflexivity|]. split; [reflexivity|].
    apply course_final; simpl; try reflexivity.
    + symmetry. exact Hs.
    + intros r' Hr' H401. rewrite Hrep in Hr'. injection Hr' as <-.
      unfold validateStatus in Hok. lia.
  - unfold response_rejected.
    cbn [config response].
    destruct (status_is_401 {| config := sent; response := o |} && negb (_retry sent)) eqn:Hgate.
    + apply andb_true_iff in Hgate as [H401 Hun].
      apply status_is_401_true in H401 as (r & Hor & H401). simpl in Hor. subst o.
      destruct Ho as [Hrep Hbad].
      apply negb_true_iff in Hun. rewrite Hr in Hun.
      unfold localStorage_getItem at 1. simpl.
      destruct (LocalStorage.items (localStorage w) !! "refresh_token") as [rt|] eqn:Hrt.
      2:{ eexists _, _. split; [reflexivity|]. split; [reflexivity|]. split; [reflexivity|].
          eapply course_no_refresh_token; simpl; eauto.
          rewrite <- app_assoc. reflexivity. }
      destruct (truthy_string rt) eqn:Htr.
      2:{ eexists _, _. split; [reflexivity|]. split; [reflexivity|]. split; [reflexivity|].
          eapply course_no_refresh_token; simpl; eauto.
          - right. unfold stored. rewrite Hrt. destruct rt; [reflexivity|discriminate].
          - rewrite <- app_assoc. reflexivity. }
      unfold axios_post. simpl.
      rewrite <- !app_assoc. simpl.
      change (API_BASE_URL _) with (API_BASE_URL w).
      change {| method := POST; url := API_BASE_URL w +:+ "/auth/refresh";
                headers := Some instance_headers;
                data := JsonBody {["refresh_token" := JStr rt]};
                _retry := false |} with (refresh_request w rt).
      change (server w (wire w ++ [ViaApi sent; ViaAxios (refresh_request w rt)]))
        with (refresh_reply w config0 rt).
      destruct (settle (refresh_request w rt) (refresh_reply w config0 rt))
        as [body|reason] eqn:Hrefresh.
      2:{ eexists _, _. split; [reflexivity|]. split; [reflexivity|]. split; [reflexivity|].
          eapply course_refresh_failed with (reason := reason); simpl; eauto.
          - left. exact Hrefresh.
          - rewrite <- !app_assoc. reflexivity. }
      destruct (nullish (Response.data body)) eqn:Hnull.
      { eexists _, _. split; [reflexivity|]. split; [reflexivity|]. split; [reflexivity|].
        eapply course_refresh_failed with (reason := TypeError); simpl; eauto.
        - right. eauto.
        - rewrite <- !app_assoc. reflexivity. }
      set (token := to_string (field "access_token" (Response.data body))).
      change (match headers sent with
              | Some h =>
                  with_headers (Some (<["Authorization" := "Bearer " +:+ token]> h))
                               (with_retry true sent)
              | None => with_retry true sent
              end) with (retried_request w config0 token).
      set (again := retried_request w config0 token).
      rewrite api_fuel_marked.
      2:{ apply retried_request_marked. }
      rewrite request_interceptor_world.
      rewrite (request_interceptor_settled _ again token).
      2:{ unfold stored. simpl. apply lookup_insert_eq. }
      2:{ apply retried_request_authorized. }
      simpl.
      eexists _, _. split; [reflexivity|]. split; [reflexivity|]. split; [reflexivity|].
      eapply course_retried with (refreshToken := rt) (body := body); simpl; eauto.
      all: rewrite <- ?app_assoc; reflexivity.
    + eexists _, _. split; [reflexivity|]. split; [reflexivity|]. split; [reflexivity|].
      apply course_final; simpl; try reflexivity.
      * symmetry. exact Hs.
      * intros r' Hr' H401. rewrite <- Hr.
        destruct o as [r|]; [destruct Ho as [Hrep _]|rewrite Ho in Hr'; discriminate].
        rewrite Hrep in Hr'. injection Hr' as <-.
        unfold status_is_401 in Hgate. simpl in Hgate.
        apply Z.eqb_eq in H401. rewrite H401 in Hgate. simpl in Hgate.
        apply negb_false_iff in Hgate. exact Hgate.
Qed.

(** More fuel never changes an outcome, and two levels always give one. *)
Lemma api_fuel_more fuel w config0 outcome :
  api_fuel fuel w config0 = Some outcome ->
  api_fuel (S fuel) w config0 = Some outcome.
Proof.
  revert w config0 outcome.
  induction fuel as [|fuel IH]; intros w c outcome; [discriminate|].
  change (api_fuel (S (S fuel)) w c)
    with (let '(w1, sent) := request_interceptor w c in
          let '(w2, reply) := transmit w1 (ViaApi sent) in
          match settle sent reply with
          | Fulfilled response => Some (w2, Fulfilled response)
          | Rejected (Failure error) =>
              response_rejected (api_fuel (S fuel)) w2 error
          | Rejected TypeError => Some (w2, Rejected TypeError)
          end).
  change (api_fuel (S fuel) w c)
    with (let '(w1, sent) := request_interceptor w c in
          let '(w2, reply) := transmit w1 (ViaApi sent) in
          match settle sent reply with
          | Fulfilled response => Some (w2, Fulfilled response)
          | Rejected (Failure error) =>
              response_rejected (api_fuel fuel) w2 error
          | Rejected TypeError => Some (w2, Rejected TypeError)
          end).
  destruct (request_interceptor w c) as [w1 sent].
  destruct (transmit w1 (ViaApi sent)) as [w2 reply].
  destruct (settle sent reply) as [?|[error|]]; try exact id.
  unfold response_rejected.
  destruct (status_is_401 error && negb (_retry (config error))); [|exact id].
  destruct (localStorage_getItem "refresh_token" w2) as [[rt|] w3]; [|exact id].
  destruct (truthy_string rt); [|exact id].
  destruct (axios_post w3 _ _) as [w4 [body|reason]]; [|exact id].
  destruct (nullish (Response.data body)); [exact id|].
  apply IH.
Qed.

Lemma api_fuel_enough fuel w config0 :
  (2 <= fuel)%nat -> api_fuel fuel w config0 = Some (api w config0).
Proof.
  intros Hfuel.
  destruct (api_fuel_course 2 w config0 (le_n 2)) as (w' & o & Htwo & _).
  unfold api. rewrite Htwo.
  induction Hfuel as [|fuel _ IH]; [exact Htwo|].
  apply api_fuel_more, IH.
Qed.

Lemma api_course w config0 :
  server (fst (api w config0)) = server w /\
  NEXT_PUBLIC_API_URL (fst (api w config0)) = NEXT_PUBLIC_API_URL w /\
  course w config0 (fst (api w config0)) (snd (api w config0)).
Proof.
  destruct (api_fuel_course 2 w config0 (le_n 2)) as (w' & o & Htwo & H).
  unfold api. rewrite Htwo. exact H.
Qed.


(** C5.  For a request that carries a headers object (as every
    [InternalAxiosRequestConfig] does), the request interceptor writes
    [Authorization: Bearer <token>] exactly when an access token, that is a
    non-empty string, is stored under [access_token], leaving method, url,
    body and the other headers as they were; when no token is stored there
    (nothing, or the empty string) the request is forwarded unchanged.  The
    interceptor itself sends nothing and writes nothing. *)
Theorem bearer_attached_iff_nonempty_token w config0 (h : Headers) :
  headers config0 = Some h ->
  ((exists token,
       stored "access_token" w = Some token /\ token <> "" /\
       first_request w config0
       = with_headers (Some (<["Authorization" := "Bearer " +:+ token]> h))
                      config0 /\
       authorization (first_request w config0) = Some ("Bearer " +:+ token))
   \/
   ((stored "access_token" w = None \/ stored "access_token" w = Some "") /\
    first_request w config0 = config0))
  /\ wire (fst (request_interceptor w config0)) = wire w
  /\ LocalStorage.items (localStorage (fst (request_interceptor w config0)))
     = LocalStorage.items (localStorage w).
Proof.
  intros Hh. rewrite request_interceptor_world. simpl.
  split; [|split; reflexivity].
  unfold first_request, authorization, stored, request_interceptor,
    localStorage_getItem. simpl. rewrite Hh.
  destruct (LocalStorage.items (localStorage w) !! "access_token") as [token|];
    [|right; auto].
  destruct token as [|a token]; simpl; [right; auto|].
  left. eexists. repeat split; try reflexivity; [discriminate|].
  apply lookup_insert_eq.
Qed.

Lemma bearer_attached_iff_nonempty_token_witness :
  authorization
    (first_request (browser {[ "access_token" := "tok-1" ]} [])
                   (request GET "/plans/" ∅ NoBody))
  = Some "Bearer tok-1".
Proof.
  destruct (bearer_attached_iff_nonempty_token
              (browser {[ "access_token" := "tok-1" ]} [])
              (request GET "/plans/" ∅ NoBody) (∅ ∪ instance_headers)
              eq_refl) as [[(token & Hs & _ & _ & Ha)|[[Hs|Hs] _]] _].
  - vm_compute in Hs. injection Hs as <-. exact Ha.
  - vm_compute in Hs. discriminate Hs.
  - vm_compute in Hs. discriminate Hs.
Defined.

(** The empty string under [access_token] counts as no token. *)
Example empty_token_is_no_token :
  let w := browser {[ "access_token" := "" ]} [] in
  let request0 := request GET "/plans/" ∅ NoBody in
  is_Some (stored "access_token" w) /\
  authorization (first_request w request0) = None /\
  first_request w request0 = request0.
Proof.
  vm_compute. repeat split. eexists. reflexivity.
Qed.


Lemma sent_between_app w w' (requests : list NetEvent) :
  wire w' = wire w ++ requests -> sent_between w w' = requests.
Proof.
  intros H. unfold sent_between. rewrite H. apply drop_app_length.
Qed.

Lemma settle_401 config0 (r : Response.t) :
  Response.status r = 401 ->
  settle config0 (Replied r)
  = Rejected (Failure {| config := config0; response := Some r |}).
Proof.
  intros H. unfold settle, validateStatus. rewrite H. reflexivity.
Qed.

(** C1.  A request without the [_retry] mark that is answered with 401 leads
    to at most one refresh request and at most one retry, whatever the fuel
    beyond two levels.  When a refresh token is stored and the refresh is
    fulfilled, exactly three requests leave the client: the original one, one
    POST to [/auth/refresh], and one retry of the original request (same
    method, url and body) that carries [Bearer <new token>] and the [_retry]
    mark; the outcome of the call is the outcome of that retry, so a second
    401 is rejected to the caller with nothing further sent. *)
Theorem refresh_once_then_retry_once (fuel : nat) w config0 (h : Headers)
    (r : Response.t) :
  (2 <= fuel)%nat ->
  _retry config0 = false ->
  headers config0 = Some h ->
  first_reply w config0 = Replied r ->
  Response.status r = 401 ->
  exists w' outcome,
    api_fuel fuel w config0 = Some (w', outcome) /\
    wire w' = wire w ++ sent_between w w' /\
    (refreshes (sent_between w w') <= 1)%nat /\
    (api_requests (sent_between w w') <= 2)%nat /\
    forall refreshToken body,
      stored "refresh_token" w = Some refreshToken ->
      refreshToken <> "" ->
      settle (refresh_request w refreshToken)
             (refresh_reply w config0 refreshToken) = Fulfilled body ->
      nullish (Response.data body) = false ->
      let token := to_string (field "access_token" (Response.data body)) in
      let again := retried_request w config0 token in
      sent_between w w' = [ViaApi (first_request w config0);
                           ViaAxios (refresh_request w refreshToken);
                           ViaApi again] /\
      method (refresh_request w refreshToken) = POST /\
      url (refresh_request w refreshToken)
      = API_BASE_URL w +:+ "/auth/refresh" /\
      authorization again = Some ("Bearer " +:+ token) /\
      method again = method config0 /\ url again = url config0 /\
      data again = data config0 /\ _retry again = true /\
      outcome = settle again (server w (wire w')) /\
      forall r2, server w (wire w') = Replied r2 ->
                 Response.status r2 = 401 ->
                 outcome = Rejected (Failure {| config := again;
                                                response := Some r2 |}).
Proof.
  intros Hfuel Hun Hh Hrep H401.
  destruct (api_fuel_course fuel w config0 Hfuel)
    as (w' & outcome & Hrun & _ & _ & Hcourse).
  exists w', outcome. split; [exact Hrun|].
  destruct Hcourse as
    [_ Hfinal _ _ _ _
    |r1 _ _ _ Hnone _ Hwire _ _ _
    |r1 rt reason _ _ _ Hrt _ Hfails _ Hwire _ _ _
    |r1 rt body _ _ _ Hrt _ Hok Hnull token again Hout Hwire _ _ _].
  - specialize (Hfinal r Hrep H401). congruence.
  - rewrite (sent_between_app _ _ _ Hwire).
    split; [exact Hwire|]. split; [cbv; lia|]. split; [cbv; lia|].
    intros rt' body' Hrt' Hne. unfold stored in *.
    destruct Hnone as [Hn|Hn]; rewrite Hn in Hrt'; congruence.
  - rewrite (sent_between_app _ _ _ Hwire).
    split; [exact Hwire|]. split; [cbv; lia|]. split; [cbv; lia|].
    intros rt' body' Hrt' Hne Hok' Hnull'.
    unfold stored in *. rewrite Hrt in Hrt'. injection Hrt' as <-.
    exfalso. destruct Hfails as [Hf|(b & Hf & Hb & _)];
      unfold refresh_fails in *; rewrite Hok' in Hf; [discriminate|].
    injection Hf as <-. congruence.
  - rewrite (sent_between_app _ _ _ Hwire).
    split; [exact Hwire|]. split; [cbv; lia|]. split; [cbv; lia|].
    intros rt' body' Hrt' Hne Hok' Hnull'.
    unfold stored in *. rewrite Hrt in Hrt'. injection Hrt' as <-.
    rewrite Hok in Hok'. injection Hok' as <-.
    fold token. fold again.
    pose proof (request_interceptor_keeps config0 w) as (Hm & Hu & Hd & _).
    cbn zeta in Hm, Hu, Hd. fold (first_request w config0) in Hm, Hu, Hd.
    assert (Hshape : method again = method config0 /\ url again = url config0
                     /\ data again = data config0 /\ _retry again = true
                     /\ authorization again = Some ("Bearer " +:+ token)).
    { unfold again, retried_request, authorization. simpl.
      destruct (headers (first_request w config0)) as [h1|] eqn:Hh1; simpl.
      - rewrite lookup_insert_eq. auto.
      - exfalso. revert Hh1. unfold first_request, request_interceptor,
          localStorage_getItem. simpl. rewrite Hh.
        destruct (LocalStorage.items (localStorage w) !! "access_token") as [t|];
          [destruct (truthy_string t)|]; simpl; congruence. }
    destruct Hshape as (? & ? & ? & ? & ?).
    repeat split; try assumption; try reflexivity.
    intros r2 Hr2 Hagain401. rewrite Hout, Hr2. apply settle_401, Hagain401.
Qed.


Lemma refresh_once_then_retry_once_witness :
  let w := browser {[ "access_token" := "old"; "refresh_token" := "R1" ]}
                   [reply 401 []; reply 200 [("access_token", JStr "new")];
                    reply 401 []] in
  let request0 := request GET "/plans/" ∅ NoBody in
  exists w' outcome,
    api_fuel 2 w request0 = Some (w', outcome) /\
    (refreshes (sent_between w w') <= 1)%nat /\
    (api_requests (sent_between w w') <= 2)%nat.
Proof.
  intros w request0.
  destruct (refresh_once_then_retry_once 2 w request0 (∅ ∪ instance_headers)
              {| Response.status := 401; Response.data := JObj [] |}
              (le_n 2) eq_refl eq_refl)
    as (w' & outcome & Hrun & _ & Hone & Htwo & _).
  - vm_compute. reflexivity.
  - reflexivity.
  - exists w', outcome. auto.
Defined.

(** C8.  When a request without the [_retry] mark is answered with 401: if
    no refresh token is stored (nothing, or the empty string), no refresh is
    attempted, storage and location stay as they are and the original error
    is rejected; if a refresh token
    is stored and the refresh fails, the refresh error is rejected, both
    [access_token] and [refresh_token] are gone from the storage and the
    browser is sent to [/login]. *)
Theorem failed_refresh_ends_session (fuel : nat) w config0 (r : Response.t) :
  (2 <= fuel)%nat ->
  _retry config0 = false ->
  first_reply w config0 = Replied r ->
  Response.status r = 401 ->
  exists w' outcome,
    api_fuel fuel w config0 = Some (w', outcome) /\
    (stored "refresh_token" w = None \/ stored "refresh_token" w = Some "" ->
       outcome = Rejected (Failure
                   {| config := with_retry true (first_request w config0);
                      response := Some r |}) /\
       sent_between w w' = [ViaApi (first_request w config0)] /\
       LocalStorage.items (localStorage w')
       = LocalStorage.items (localStorage w) /\
       location_href w' = location_href w) /\
    (forall refreshToken reason,
       stored "refresh_token" w = Some refreshToken ->
       refreshToken <> "" ->
       refresh_fails w config0 refreshToken reason ->
       outcome = Rejected reason /\
       sent_between w w' = [ViaApi (first_request w config0);
                            ViaAxios (refresh_request w refreshToken)] /\
       stored "access_token" w' = None /\
       stored "refresh_token" w' = None /\
       location_href w' = "/login").
Proof.
  intros Hfuel Hun Hrep H401.
  destruct (api_fuel_course fuel w config0 Hfuel)
    as (w' & outcome & Hrun & _ & _ & Hcourse).
  exists w', outcome. split; [exact Hrun|].
  destruct Hcourse as
    [_ Hfinal _ _ _ _
    |r1 Hrep1 _ _ Hnone Hout Hwire Hitems _ Hhref
    |r1 rt reason _ _ _ Hrt Htr Hfails Hout Hwire Hitems _ Hhref
    |r1 rt body _ _ _ Hrt Htr Hok Hnull token again _ _ _ _ _].
  - specialize (Hfinal r Hrep H401). congruence.
  - rewrite Hrep in Hrep1. injection Hrep1 as <-.
    rewrite (sent_between_app _ _ _ Hwire). split; [auto|].
    intros rt' reason' Hrt' Hne. unfold stored in *.
    destruct Hnone as [Hn|Hn]; rewrite Hn in Hrt'; congruence.
  - unfold stored in *.
    split; [intros [Hn|Hn]; rewrite Hn in Hrt; [discriminate|];
            injection Hrt as <-; discriminate Htr|].
    intros rt' reason' Hrt' Hne Hfails'.
    rewrite Hrt in Hrt'. injection Hrt' as <-.
    assert (reason' = reason) as ->.
    { unfold refresh_fails in *.
      destruct Hfails as [Hf|(b & Hf & _ & ->)],
               Hfails' as [Hf'|(b' & Hf' & _ & ->)]; congruence. }
    rewrite (sent_between_app _ _ _ Hwire), Hitems.
    repeat split; auto.
    + rewrite lookup_delete_ne by discriminate. apply lookup_delete_eq.
    + apply lookup_delete_eq.
  - unfold stored in *.
    split; [intros [Hn|Hn]; rewrite Hn in Hrt; [discriminate|];
            injection Hrt as <-; discriminate Htr|].
    intros rt' reason' Hrt' Hne Hfails'.
    rewrite Hrt in Hrt'. injection Hrt' as <-.
    exfalso. unfold refresh_fails in Hfails'.
    destruct Hfails' as [Hf|(b & Hf & Hb & _)]; rewrite Hok in Hf;
      [discriminate|]. injection Hf as <-. congruence.
Qed.

Lemma failed_refresh_ends_session_witness :
  let w := browser {[ "access_token" := "old"; "refresh_token" := "R1" ]}
                   [reply 401 []; reply 401 [("detail", JStr "expired")]] in
  let request0 := request GET "/plans/" ∅ NoBody in
  exists w' outcome,
    api_fuel 2 w request0 = Some (w', outcome) /\
    stored "access_token" w' = None /\ stored "refresh_token" w' = None /\
    location_href w' = "/login".
Proof.
  intros w request0.
  destruct (failed_refresh_ends_session 2 w request0
              {| Response.status := 401; Response.data := JObj [] |}
              (le_n 2) eq_refl)
    as (w' & outcome & Hrun & _ & Hfailed).
  - vm_compute. reflexivity.
  - reflexivity.
  - exists w', outcome. split; [exact Hrun|].
    destruct (Hfailed "R1"
                (Failure {| config := refresh_request w "R1";
                            response := Some {| Response.status := 401;
                                                Response.data :=
                                                  JObj [("detail", JStr "expired")] |} |}))
      as (_ & _ & Ha & Hr & Hl).
    + vm_compute. reflexivity.
    + discriminate.
    + left. vm_compute. reflexivity.
    + auto.
Defined.


(** A run with an expired access token: the refresh brings a new one and the
    retry succeeds. *)
Example expired_token_is_refreshed :
  let w := browser {[ "access_token" := "old"; "refresh_token" := "R1" ]}
                   [reply 401 []; reply 200 [("access_token", JStr "new")];
                    reply 200 [("plans", JArr [])]] in
  let '(w', outcome) := api w (request GET "/plans/" ∅ NoBody) in
  outcome = Fulfilled {| Response.status := 200;
                         Response.data := JObj [("plans", JArr [])] |} /\
  stored "access_token" w' = Some "new" /\
  stored "refresh_token" w' = Some "R1" /\
  location_href w' = "/dashboard" /\
  (authorization <$> (wire w' ≫= fun request0 =>
                        match request0 with
                        | ViaApi c => [c]
                        | ViaAxios _ => []
                        end))
  = [Some "Bearer old"; Some "Bearer new"] /\
  refreshes (wire w') = 1%nat.
Proof. vm_compute. repeat split; reflexivity. Qed.

(** ** Token storage *)

Lemma touched_keys_app w w' (accesses : list LocalStorage.access) :
  LocalStorage.journal (localStorage w')
  = LocalStorage.journal (localStorage w) ++ accesses ->
  touched_keys w w' = LocalStorage.key_of <$> accesses.
Proof.
  intros H. unfold touched_keys, LocalStorage.keys_since.
  rewrite H, drop_app_length. reflexivity.
Qed.

Lemma access_token_is_token_key : "access_token" ∈ token_keys.
Proof. apply list_elem_of_here. Qed.

Lemma refresh_token_is_token_key : "refresh_token" ∈ token_keys.
Proof. apply list_elem_of_further, list_elem_of_here. Qed.

Lemma auth_token_is_no_token_key : "auth_token" ∉ token_keys.
Proof.
  unfold token_keys. rewrite !elem_of_cons, elem_of_nil.
  intros [H|[H|[]]]; discriminate H.
Qed.

Create HintDb token_keys.
#[local] Hint Resolve access_token_is_token_key refresh_token_is_token_key
  : token_keys.

(** Every storage call of the instance is on one of the two token keys. *)
Lemma api_journal w config0 :
  exists accesses,
    LocalStorage.journal (localStorage (fst (api w config0)))
    = LocalStorage.journal (localStorage w) ++ accesses /\
    Forall (fun a => LocalStorage.key_of a ∈ token_keys) accesses.
Proof.
  destruct (api_course w config0) as (_ & _ & Hcourse).
  destruct Hcourse as
    [_ _ _ _ Hj _
    |? _ _ _ _ _ _ _ Hj _
    |? ? ? _ _ _ _ _ _ _ _ _ Hj _
    |? ? ? _ _ _ _ _ _ _ ? ? _ _ _ Hj _];
    eexists; (split; [exact Hj|]);
    repeat constructor; simpl; auto with token_keys.
Qed.


(** C2 (as amended).  The instance with its interceptors, [authAPI.login]
    and [authAPI.logout] touch the storage only under [access_token] and
    [refresh_token]: a fulfilled login writes both (the two fields of the
    body, as strings, after whatever the request itself did), a login that
    is rejected writes nothing more, and [authAPI.logout] removes both.  The
    auth store's [logout] removes both as well and then, through [persist],
    writes the state it leaves - no user, not authenticated, a text that
    depends on nothing in the storage - under [auth-storage].
    [getAuthToken] and [setAuthToken] use a third fixed key, [auth_token],
    which is none of the two: login and both logouts leave it alone, and
    [setAuthToken] leaves the two token keys alone. *)
Theorem token_storage_keys {persisted : AuthStore.Stringify} :
  (forall w config0,
     Forall (fun key => key ∈ token_keys)
            (touched_keys w (fst (api w config0)))) /\
  (forall w email password,
     Forall (fun key => key ∈ token_keys)
            (touched_keys w (fst (authAPI.login w email password))) /\
     stored "auth_token" (fst (authAPI.login w email password))
     = stored "auth_token" w) /\
  (forall w email password,
     let sent :=
       api w (request POST "/auth/login" ∅
                (JsonBody {[ "email" := JStr email;
                             "password" := JStr password ]})) in
     let w2 := fst (authAPI.login w email password) in
     match snd sent with
     | Fulfilled response =>
         if nullish (Response.data response) then w2 = fst sent
         else
           let access :=
             to_string (field "access_token" (Response.data response)) in
           let refresh :=
             to_string (field "refresh_token" (Response.data response)) in
           snd (authAPI.login w email password)
           = Fulfilled (Response.data response) /\
           LocalStorage.journal (localStorage w2)
           = LocalStorage.journal (localStorage (fst sent))
             ++ [LocalStorage.Written "access_token" access;
                 LocalStorage.Written "refresh_token" refresh] /\
           touched_keys (fst sent) w2 = token_keys /\
           stored "access_token" w2 = Some access /\
           stored "refresh_token" w2 = Some refresh
     | Rejected _ => w2 = fst sent
     end) /\
  (forall w,
     touched_keys w (authAPI.logout w) = token_keys /\
     stored "access_token" (authAPI.logout w) = None /\
     stored "refresh_token" (authAPI.logout w) = None /\
     stored "auth_token" (authAPI.logout w) = stored "auth_token" w) /\
  (forall w state,
     let persisted_state :=
       AuthStore.stringify
         {| AuthStore.user := None; AuthStore.isAuthenticated := false;
            AuthStore.isLoading := AuthStore.isLoading state |} in
     LocalStorage.journal (localStorage (fst (AuthStore.logout w state)))
     = LocalStorage.journal (localStorage w)
       ++ [LocalStorage.Removed "access_token";
           LocalStorage.Removed "refresh_token";
           LocalStorage.Written "auth-storage" persisted_state] /\
     touched_keys w (fst (AuthStore.logout w state))
     = token_keys ++ ["auth-storage"] /\
     stored "access_token" (fst (AuthStore.logout w state)) = None /\
     stored "refresh_token" (fst (AuthStore.logout w state)) = None /\
     stored "auth-storage" (fst (AuthStore.logout w state))
     = Some persisted_state /\
     stored "auth_token" (fst (AuthStore.logout w state))
     = stored "auth_token" w) /\
  (forall ls,
     fst (AuthTs.getAuthToken true ls) = LocalStorage.items ls !! "auth_token" /\
     LocalStorage.journal (snd (AuthTs.getAuthToken true ls))
     = LocalStorage.journal ls ++ [LocalStorage.Read "auth_token"]) /\
  (forall ls token,
     LocalStorage.journal (AuthTs.setAuthToken true token ls)
     = LocalStorage.journal ls ++ [LocalStorage.Written "auth_token" token] /\
     fst (AuthTs.getAuthToken true (AuthTs.setAuthToken true token ls))
     = Some token /\
     forall key, key ∈ token_keys ->
       LocalStorage.items (AuthTs.setAuthToken true token ls) !! key
       = LocalStorage.items ls !! key) /\
  "auth_token" ∉ token_keys.
Proof.
  assert (Hitems : forall w config0 key,
            key ∉ token_keys ->
            stored key (fst (api w config0)) = stored key w).
  { intros w c key Hkey. unfold stored.
    assert (key <> "access_token") by (intros ->; auto with token_keys).
    assert (key <> "refresh_token") by (intros ->; auto with token_keys).
    destruct (api_course w c) as (_ & _ & Hcourse).
    destruct Hcourse as
      [_ _ _ Hi _ _
      |? _ _ _ _ _ _ Hi _ _
      |? ? ? _ _ _ _ _ _ _ _ Hi _ _
      |? ? ? _ _ _ _ _ _ _ ? ? _ _ Hi _ _]; rewrite Hi; try reflexivity.
    - rewrite !lookup_delete_ne by congruence. reflexivity.
    - rewrite lookup_insert_ne by congruence. reflexivity. }
  repeat apply conj.
  - intros w c. destruct (api_journal w c) as (accesses & Hj & Hall).
    rewrite (touched_keys_app _ _ _ Hj). apply Forall_fmap. exact Hall.
  - intros w email password. unfold authAPI.login.
    set (c := request POST "/auth/login" _ _).
    destruct (api_journal w c) as (accesses & Hj & Hall).
    pose proof (Hitems w c "auth_token" auth_token_is_no_token_key) as Hkeep.
    destruct (api w c) as [w1 [body|reason]]; simpl in *.
    + destruct (nullish (Response.data body)); simpl.
      * split; [|exact Hkeep].
        rewrite (touched_keys_app _ _ _ Hj). apply Forall_fmap. exact Hall.
      * split.
        -- erewrite touched_keys_app
             by (simpl; rewrite Hj, <- !app_assoc; reflexivity).
           rewrite fmap_app. apply Forall_app. split.
           ++ apply Forall_fmap. exact Hall.
           ++ repeat constructor; simpl; auto with token_keys.
        -- unfold stored in *. simpl.
           rewrite !lookup_insert_ne by discriminate. exact Hkeep.
    + split; [|exact Hkeep].
      rewrite (touched_keys_app _ _ _ Hj). apply Forall_fmap. exact Hall.
  - intros w email password. cbv zeta. unfold authAPI.login.
    destruct (api w _) as [w1 [response|reason]]; simpl; [|reflexivity].
    destruct (nullish (Response.data response)); simpl; [reflexivity|].
    split; [reflexivity|]. split; [rewrite <- app_assoc; reflexivity|].
    split; [|split].
    + erewrite touched_keys_app
        by (simpl; rewrite <- app_assoc; reflexivity). reflexivity.
    + unfold stored. simpl. rewrite lookup_insert_ne by discriminate.
      apply lookup_insert_eq.
    + unfold stored. simpl. apply lookup_insert_eq.
  - intros w. unfold authAPI.logout, stored. simpl. repeat split.
    + erewrite touched_keys_app
        by (simpl; rewrite <- !app_assoc; reflexivity). reflexivity.
    + rewrite lookup_delete_ne by discriminate. apply lookup_delete_eq.
    + apply lookup_delete_eq.
    + rewrite !lookup_delete_ne by discriminate. reflexivity.
  - intros w state. cbv zeta.
    unfold AuthStore.logout, AuthStore.persist, stored. simpl.
    split; [rewrite <- !app_assoc; reflexivity|].
    split; [|split; [|split; [|split]]].
    + erewrite touched_keys_app
        by (simpl; rewrite <- !app_assoc; reflexivity). reflexivity.
    + rewrite lookup_insert_ne by discriminate.
      rewrite lookup_delete_ne by discriminate. apply lookup_delete_eq.
    + rewrite lookup_insert_ne by discriminate. apply lookup_delete_eq.
    + apply lookup_insert_eq.
    + rewrite lookup_insert_ne by discriminate.
      rewrite !lookup_delete_ne by discriminate. reflexivity.
  - intros ls. split; reflexivity.
  - intros ls token. simpl. repeat split.
    + apply lookup_insert_eq.
    + intros key Hkey. apply lookup_insert_ne. intros <-.
      exact (auth_token_is_no_token_key Hkey).
  - exact auth_token_is_no_token_key.
Qed.

(** C2, as stated, fails: after a fulfilled login [getAuthToken] still finds
    nothing, and the key [setAuthToken] writes is not a token key, so a
    logout does not remove what it stored. *)
Lemma auth_helpers_share_token_keys_counterexample :
  let w := browser ∅ [reply 200 [("access_token", JStr "A1");
                                 ("refresh_token", JStr "R1")]] in
  let w1 := fst (authAPI.login w "ada@example.org" "secret") in
  stored "access_token" w1 = Some "A1" /\
  stored "refresh_token" w1 = Some "R1" /\
  fst (AuthTs.getAuthToken true (localStorage w1)) = None /\
  LocalStorage.keys_since 0 (AuthTs.setAuthToken true "A1" LocalStorage.empty)
  = ["auth_token"] /\
  stored "auth_token"
    (authAPI.logout
       (with_localStorage
          (AuthTs.setAuthToken true "A1" (localStorage w1)) w1))
  = Some "A1" /\
  "auth_token" ∉ token_keys.
Proof.
  repeat apply conj; try (vm_compute; reflexivity).
  exact auth_token_is_no_token_key.
Qed.

End wrapper.

(** ** The stores *)
Section stores.
Import PlanStore.

Lemma updateTask_state (taskId : string) (updates : Obj) (state : PlanState) :
  updateTask taskId updates state
  = {| currentPlan := updated_plan taskId updates <$> currentPlan state;
       plans := plans state; syllabi := syllabi state |}.
Proof.
  unfold updateTask, set_with.
  destruct state as [[plan|] ps ss]; reflexivity.
Qed.

(** C4.  Each operation of the plan store replaces its own field and leaves
    the other two as they were: [setCurrentPlan] the current plan, [setPlans]
    and [addPlan] the list of plans (the new plan is put in front),
    [setSyllabi] the syllabi, [updateTask] the current plan. *)
Theorem plan_store_frame (state : PlanState) :
  (forall plan,
     setCurrentPlan plan state
     = {| currentPlan := plan; plans := plans state;
          syllabi := syllabi state |}) /\
  (forall ps,
     setPlans ps state
     = {| currentPlan := currentPlan state; plans := ps;
          syllabi := syllabi state |}) /\
  (forall ss,
     setSyllabi ss state
     = {| currentPlan := currentPlan state; plans := plans state;
          syllabi := ss |}) /\
  (forall plan,
     addPlan plan state
     = {| currentPlan := currentPlan state; plans := plan :: plans state;
          syllabi := syllabi state |}) /\
  (forall taskId updates,
     updateTask taskId updates state
     = {| currentPlan := updated_plan taskId updates <$> currentPlan state;
          plans := plans state; syllabi := syllabi state |}).
Proof.
  repeat apply conj; try reflexivity.
  intros taskId updates. apply updateTask_state.
Qed.

(** C9.  In the auth store [isAuthenticated] holds exactly when a user is
    set: in the initial state, after [setUser] and after [logout] from any
    state, hence after any sequence of calls. *)
Theorem auth_store_invariant {persisted : AuthStore.Stringify} :
  authenticated_iff_user AuthStore.initial /\
  (forall u state, authenticated_iff_user (AuthStore.setUser u state)) /\
  (forall w state, authenticated_iff_user (snd (AuthStore.logout w state))) /\
  (forall calls w,
     authenticated_iff_user
       (snd (AuthStore.perform_all w AuthStore.initial calls))).
Proof.
  assert (Hinit : authenticated_iff_user AuthStore.initial).
  { unfold authenticated_iff_user. simpl.
    split; [discriminate|]. intros Hsome. destruct (is_Some_None Hsome). }
  assert (Hset : forall u state,
            authenticated_iff_user (AuthStore.setUser u state)).
  { intros u state. unfold authenticated_iff_user. simpl.
    apply bool_decide_eq_true. }
  assert (Hout : forall w state,
            authenticated_iff_user (snd (AuthStore.logout w state))).
  { intros w state. unfold authenticated_iff_user. simpl.
    split; [discriminate|]. intros Hsome. destruct (is_Some_None Hsome). }
  split; [exact Hinit|]. split; [exact Hset|]. split; [exact Hout|].
  intros calls. generalize AuthStore.initial, Hinit.
  induction calls as [|c calls IH]; intros state Hstate w; [exact Hstate|].
  simpl. destruct c as [u|]; simpl; apply IH; auto.
Qed.

End stores.

(** ** The pages *)
Section pages.
Import Api.


Lemma api_wire (w : World) (c : InternalAxiosRequestConfig) :
  exists rest,
    wire (fst (api w c)) = wire w ++ ViaApi (first_request w c) :: rest.
Proof.
  destruct (api_course w c) as (_ & _ & Hcourse).
  destruct Hcourse as
    [_ _ Hw _ _ _
    |? _ _ _ _ _ Hw _ _ _
    |? ? ? _ _ _ _ _ _ _ Hw _ _ _
    |? ? ? _ _ _ _ _ _ _ ? ? _ Hw _ _ _]; eexists; exact Hw.
Qed.

Lemma data_of_world (outcome : World * Settled Response.t) :
  fst (data_of outcome) = fst outcome.
Proof. destruct outcome as [w [r|e]]; reflexivity. Qed.

Lemma spread_updates (task updates : Obj) :
  (forall k v, updates !! k = Some v -> spread task updates !! k = Some v) /\
  (forall k, updates !! k = None -> spread task updates !! k = task !! k).
Proof.
  unfold spread. split.
  - intros k v Hk. apply lookup_union_Some_l, Hk.
  - intros k Hk. apply lookup_union_r, Hk.
Qed.

(** C3.  [handleTaskSave] applies [updateTask] to the store before the PUT
    request leaves: in the state the request leaves from, nothing has been
    sent yet and the current plan already carries the updates on every task
    with the given id.  When the PUT is rejected the handler only clears
    [updatingTask]; the store keeps the updated plan. *)
Theorem optimistic_update_not_rolled_back (c : Client)
    (page : DashboardPage.State) (taskId : string) (updates : Obj)
    (plan : Plan.t) :
  PlanStore.currentPlan (planStore c) = Some plan ->
  let started := DashboardPage.handleTaskSave_start taskId updates c page in
  let put :=
    request PUT ("/plans/" +:+ pretty (Plan.plan_id plan) +:+ "/tasks/"
                 +:+ taskId) ∅ (JsonBody updates) in
  world (fst started) = world c /\
  PlanStore.currentPlan (planStore (fst started))
  = Some (updated_plan taskId updates plan) /\
  (exists rest,
     wire (fst (plansAPI.updateTask (world c) (Plan.plan_id plan) taskId
                                    updates))
     = wire (world (fst started))
       ++ ViaApi (first_request (world c) put) :: rest) /\
  (forall w' reason,
     plansAPI.updateTask (world c) (Plan.plan_id plan) taskId updates
     = (w', Rejected reason) ->
     DashboardPage.handleTaskSave c page taskId updates
     = (with_world w' (fst started),
        DashboardPage.setUpdatingTask None (snd started)) /\
     planStore (fst (DashboardPage.handleTaskSave c page taskId updates))
     = PlanStore.updateTask taskId updates (planStore c) /\
     PlanStore.currentPlan
       (planStore (fst (DashboardPage.handleTaskSave c page taskId updates)))
     = Some (updated_plan taskId updates plan)) /\
  (forall i week,
     StudyPlan.weeks (Plan.plan_data plan) !! i = Some week ->
     exists week',
       StudyPlan.weeks (Plan.plan_data (updated_plan taskId updates plan)) !! i
       = Some week' /\
       forall j task,
         WeekPlan.tasks week !! j = Some task ->
         exists task',
           WeekPlan.tasks week' !! j = Some task' /\
           (PlanStore.has_id taskId task = true ->
              (forall k v, updates !! k = Some v -> task' !! k = Some v) /\
              (forall k, updates !! k = None -> task' !! k = task !! k)) /\
           (PlanStore.has_id taskId task = false -> task' = task)).
Proof.
  intros Hplan started put.
  assert (Hstore : PlanStore.updateTask taskId updates (planStore c)
                   = {| PlanStore.currentPlan :=
                          Some (updated_plan taskId updates plan);
                        PlanStore.plans := PlanStore.plans (planStore c);
                        PlanStore.syllabi := PlanStore.syllabi (planStore c) |}).
  { rewrite updateTask_state, Hplan. reflexivity. }
  split; [reflexivity|]. split; [simpl; rewrite Hstore; reflexivity|].
  split.
  { unfold plansAPI.updateTask. rewrite data_of_world. apply api_wire. }
  split.
  - intros w' reason Hput. unfold DashboardPage.handleTaskSave.
    rewrite Hplan. simpl. rewrite Hput. simpl.
    rewrite Hstore. auto.
  - intros i week Hweek. simpl. rewrite list_lookup_fmap, Hweek. simpl.
    eexists. split; [reflexivity|]. simpl.
    intros j task Htask. unfold PlanStore.update_tasks.
    rewrite list_lookup_fmap, Htask. simpl.
    eexists. split; [reflexivity|].
    destruct (PlanStore.has_id taskId task); split; try discriminate; auto.
    intros _. apply spread_updates.
Qed.


Lemma optimistic_update_not_rolled_back_witness :
  let c := sample_client ∅ [reply 500 [("detail", JStr "boom")]] in
  let updates : Obj := {[ "status" := JStr "completed" ]} in
  planStore (fst (DashboardPage.handleTaskSave c sample_dashboard "t1" updates))
  = PlanStore.updateTask "t1" updates (planStore c).
Proof.
  intros c updates.
  destruct (optimistic_update_not_rolled_back c sample_dashboard "t1" updates
              sample_plan eq_refl) as (_ & _ & _ & Hrejected & _).
  eapply Hrejected. vm_compute. reflexivity.
Defined.

Example rejected_save_keeps_completed :
  let c := sample_client ∅ [reply 500 [("detail", JStr "boom")]] in
  let c' := fst (DashboardPage.handleTaskSave c sample_dashboard "t1"
                   {[ "status" := JStr "completed" ]}) in
  (PlanStore.currentPlan (planStore c')
     ≫= fun plan => StudyPlan.weeks (Plan.plan_data plan) !! 0%nat
     ≫= fun week => WeekPlan.tasks week !! 0%nat
     ≫= fun task => task !! "status") = Some (JStr "completed")
  /\ length (wire (world c')) = 1%nat.
Proof. vm_compute. split; reflexivity. Qed.

(** C10.  For a current plan the dashboard shows one section per entry of
    [weeks.slice(0, 4)]: the first four weeks in order and none of the later
    ones, while the badge counts all weeks of the plan. *)
Theorem dashboard_shows_first_four_weeks (plan : Plan.t) :
  exists card,
    DashboardPage.render_plan (Some plan) = Some card /\
    DashboardPage.weeks_badge card
    = length (StudyPlan.weeks (Plan.plan_data plan)) /\
    DashboardPage.week_sections card
    = take 4 (StudyPlan.weeks (Plan.plan_data plan)) /\
    length (DashboardPage.week_sections card)
    = (4 `min` length (StudyPlan.weeks (Plan.plan_data plan)))%nat /\
    (forall i, (i < 4)%nat ->
       DashboardPage.week_sections card !! i
       = StudyPlan.weeks (Plan.plan_data plan) !! i) /\
    (forall i, (4 <= i)%nat -> DashboardPage.week_sections card !! i = None).
Proof.
  eexists. split; [reflexivity|].
  cbn [DashboardPage.weeks_badge DashboardPage.week_sections].
  unfold DashboardPage.slice. rewrite drop_0. change (4 - 0)%nat with 4%nat.
  repeat split.
  - apply length_take.
  - intros i Hi. apply lookup_take_lt, Hi.
  - intros i Hi. apply lookup_take_ge, Hi.
Qed.

Example fifth_week_not_shown :
  (DashboardPage.render_plan (Some sample_plan)
     ≫= fun card =>
          Some (DashboardPage.weeks_badge card,
                WeekPlan.week_number <$> DashboardPage.week_sections card))
  = Some (5%nat, [1; 2; 3; 4]).
Proof. reflexivity. Qed.





(** C7.  With no file chosen [handleUpload] returns at once: client and page
    are untouched and nothing is sent; the page then shows the drop zone, not
    the Upload & Parse button.  With a file chosen the button is disabled
    exactly while [uploading] is set, which it is from the start of
    [handleUpload] across both of its requests. *)
Theorem no_file_no_upload {syllabi_cast : Cast (list Syllabus.t)}
    (c : Client) (page : UploadPage.State) :
  UploadPage.file page = None ->
  UploadPage.handleUpload c page = (c, page) /\
  sent_between (world c) (world (fst (UploadPage.handleUpload c page))) = [] /\
  (forall view, UploadPage.render true page = Some view ->
                UploadPage.upload_card view = UploadPage.DropZone) /\
  (forall busy f view,
     UploadPage.file busy = Some f ->
     UploadPage.render true busy = Some view ->
     UploadPage.upload_card view
     = UploadPage.Chosen (name f) (UploadPage.uploading busy)
                         (UploadPage.uploading busy)
                         (UploadPage.parsing busy)) /\
  (forall chosen syllabus_id parsed,
     UploadPage.uploading (UploadPage.handleUpload_start chosen) = true /\
     UploadPage.uploading
       (UploadPage.setParsedData parsed
          (UploadPage.setSyllabusId syllabus_id
             (UploadPage.handleUpload_start chosen))) = true).
Proof.
  intros Hfile.
  assert (Hrun : UploadPage.handleUpload c page = (c, page)).
  { unfold UploadPage.handleUpload. rewrite Hfile. reflexivity. }
  rewrite Hrun. split; [reflexivity|]. split; [|split; [|split]].
  - unfold sent_between. simpl. apply drop_all.
  - unfold UploadPage.render. simpl. rewrite Hfile. intros view [= <-].
    reflexivity.
  - unfold UploadPage.render. simpl. intros busy f view -> [= <-].
    reflexivity.
  - intros chosen syllabus_id parsed. split; reflexivity.
Qed.

Lemma no_file_no_upload_witness :
  let c := sample_client ∅ [] in
  @UploadPage.handleUpload no_syllabi c UploadPage.initial
  = (c, UploadPage.initial).
Proof.
  intros c.
  exact (proj1 (@no_file_no_upload no_syllabi c UploadPage.initial eq_refl)).
Defined.

End pages.

(** * Further properties of the sources *)

(** ** The HTTP wrapper, beyond the 401 path *)
Section wrapper_more.
Import Api.

Implicit Types (w : World) (c : InternalAxiosRequestConfig).

(** X1.  The instance calls itself at most once: with two levels of fuel
    or more every call returns, and always the same outcome; one level is
    enough for a request that carries the [_retry] mark, and is not enough in
    general. *)
Theorem retry_depth_is_two (fuel : nat) w c :
  (2 <= fuel)%nat ->
  api_fuel fuel w c = Some (api w c) /\
  (_retry c = true -> api_fuel 1 w c = Some (api w c)) /\
  (exists w0 c0, api_fuel 1 w0 c0 = None).
Proof.
  intros Hfuel.
  assert (Htwo : api_fuel 2 w c = Some (api w c)).
  { destruct (api_fuel_course 2 w c (le_n 2)) as (w' & o & Htwo & _).
    unfold api. rewrite Htwo. reflexivity. }
  split; [|split].
  - induction Hfuel as [|fuel _ IH]; [exact Htwo|].
    apply api_fuel_more, IH.
  - intros Hmark. rewrite <- Htwo.
    rewrite (api_fuel_marked 0 w c Hmark), (api_fuel_marked 1 w c Hmark).
    reflexivity.
  - exists (browser {[ "refresh_token" := "R1" ]}
                    [reply 401 []; reply 200 [("access_token", JStr "new")]]),
           (request GET "/plans/" ∅ NoBody).
    vm_compute. reflexivity.
Qed.

Lemma retry_depth_is_two_witness :
  let w := browser {[ "refresh_token" := "R1" ]}
                   [reply 401 []; reply 200 [("access_token", JStr "new")];
                    reply 200 []] in
  api_fuel 5 w (request GET "/plans/" ∅ NoBody)
  = Some (api w (request GET "/plans/" ∅ NoBody)).
Proof.
  intros w.
  apply (retry_depth_is_two 5 w (request GET "/plans/" ∅ NoBody)). lia.
Defined.

(** X2.  Unless the first reply is a 401 to a request without the [_retry]
    mark, a call is settled by that reply alone: one request is sent, no
    refresh is tried, stored items and location are left as they are, and
    the outcome is the reply itself (fulfilled on 2xx, rejected with the
    server's response otherwise, rejected without a response when the
    network fails). *)
Theorem settled_by_first_reply w c :
  (forall r, first_reply w c = Replied r ->
             Response.status r = 401 -> _retry c = true) ->
  snd (api w c) = settle (first_request w c) (first_reply w c) /\
  sent_between w (fst (api w c)) = [ViaApi (first_request w c)] /\
  LocalStorage.items (localStorage (fst (api w c)))
  = LocalStorage.items (localStorage w) /\
  location_href (fst (api w c)) = location_href w.
Proof.
  intros Hgate. destruct (api_course w c) as (_ & _ & Hcourse).
  destruct Hcourse as
    [Hout _ Hwire Hitems _ Hhref
    |r Hrep H401 Hun _ _ _ _ _ _
    |r ? ? Hrep H401 Hun _ _ _ _ _ _ _ _
    |r ? ? Hrep H401 Hun _ _ _ _ ? ? _ _ _ _ _].
  - rewrite (sent_between_app _ _ _ Hwire). auto.
  - specialize (Hgate r Hrep H401). congruence.
  - specialize (Hgate r Hrep H401). congruence.
  - specialize (Hgate r Hrep H401). congruence.
Qed.

Lemma settled_by_first_reply_witness :
  let w := browser {[ "access_token" := "tok"; "refresh_token" := "R1" ]}
                   [reply 500 [("detail", JStr "boom")]] in
  sent_between w (fst (api w (request GET "/plans/" ∅ NoBody)))
  = [ViaApi (first_request w (request GET "/plans/" ∅ NoBody))].
Proof.
  intros w.
  refine (proj1 (proj2 (settled_by_first_reply w
                          (request GET "/plans/" ∅ NoBody) _))).
  intros r Hr H401. vm_compute in Hr. injection Hr as <-. discriminate H401.
Defined.

Lemma first_request_header w c (key : string) :
  key <> "Authorization" -> header key (first_request w c) = header key c.
Proof.
  intros Hkey. unfold header, first_request, request_interceptor,
    localStorage_getItem. simpl.
  destruct (LocalStorage.items (localStorage w) !! "access_token") as [t|];
    [|reflexivity].
  destruct (headers c) as [h|] eqn:Hh; simpl; rewrite ?Hh; [|reflexivity].
  destruct (truthy_string t); simpl; rewrite ?Hh; [|reflexivity].
  apply lookup_insert_ne. congruence.
Qed.

Lemma retried_request_header w c (token key : string) :
  key <> "Authorization" ->
  header key (retried_request w c token) = header key c.
Proof.
  intros Hkey. rewrite <- (first_request_header w c key Hkey).
  unfold header, retried_request. simpl.
  destruct (headers (first_request w c)) as [h|] eqn:Hh; simpl.
  - apply lookup_insert_ne. congruence.
  - rewrite Hh. reflexivity.
Qed.

Lemma retried_request_keeps w c (token : string) :
  method (retried_request w c token) = method c /\
  url (retried_request w c token) = url c /\
  data (retried_request w c token) = data c.
Proof.
  pose proof (request_interceptor_keeps c w) as (Hm & Hu & Hd & _).
  cbn zeta in Hm, Hu, Hd. fold (first_request w c) in Hm, Hu, Hd.
  unfold retried_request. simpl.
  destruct (headers (first_request w c)); simpl; auto.
Qed.

(** X3.  Whatever a call sends through the instance is the caller's
    request: same method, url and body, and the same headers except
    [Authorization]; this holds for the retry as well.  Whatever it sends
    through plain axios is the refresh request for the stored refresh token,
    a POST to [/auth/refresh] that carries no [Authorization] header. *)
Theorem interceptors_keep_the_request w c (sent : NetEvent) :
  sent ∈ sent_between w (fst (api w c)) ->
  match sent with
  | ViaApi c' =>
      method c' = method c /\ url c' = url c /\ data c' = data c /\
      forall key, key <> "Authorization" -> header key c' = header key c
  | ViaAxios c' =>
      exists refreshToken,
        stored "refresh_token" w = Some refreshToken /\
        c' = refresh_request w refreshToken /\
        method c' = POST /\
        url c' = API_BASE_URL w +:+ "/auth/refresh" /\
        data c' = JsonBody {[ "refresh_token" := JStr refreshToken ]} /\
        authorization c' = None
  end.
Proof.
  assert (Hfirst : method (first_request w c) = method c /\
                   url (first_request w c) = url c /\
                   data (first_request w c) = data c /\
                   forall key, key <> "Authorization" ->
                     header key (first_request w c) = header key c).
  { pose proof (request_interceptor_keeps c w) as (Hm & Hu & Hd & _).
    repeat split; try assumption. intros key. apply first_request_header. }
  assert (Hagain : forall token,
            method (retried_request w c token) = method c /\
            url (retried_request w c token) = url c /\
            data (retried_request w c token) = data c /\
            forall key, key <> "Authorization" ->
              header key (retried_request w c token) = header key c).
  { intros token. destruct (retried_request_keeps w c token) as (? & ? & ?).
    repeat split; try assumption. intros key. apply retried_request_header. }
  assert (Hrefresh : forall rt,
            stored "refresh_token" w = Some rt ->
            exists refreshToken,
              stored "refresh_token" w = Some refreshToken /\
              refresh_request w rt = refresh_request w refreshToken /\
              method (refresh_request w rt) = POST /\
              url (refresh_request w rt) = API_BASE_URL w +:+ "/auth/refresh" /\
              data (refresh_request w rt)
              = JsonBody {[ "refresh_token" := JStr refreshToken ]} /\
              authorization (refresh_request w rt) = None).
  { intros rt Hrt. exists rt. repeat split; auto. }
  destruct (api_course w c) as (_ & _ & Hcourse).
  destruct Hcourse as
    [_ _ Hwire _ _ _
    |? _ _ _ _ _ Hwire _ _ _
    |? rt ? _ _ _ Hrt _ _ _ Hwire _ _ _
    |? rt ? _ _ _ Hrt _ _ _ ? ? _ Hwire _ _ _];
    rewrite (sent_between_app _ _ _ Hwire);
    rewrite ?elem_of_cons, elem_of_nil;
    intros Hin; repeat (destruct Hin as [->|Hin]); try contradiction;
    cbv beta iota; eauto.
Qed.

Lemma interceptors_keep_the_request_witness :
  let w := browser {[ "access_token" := "old"; "refresh_token" := "R1" ]}
                   [reply 401 []; reply 200 [("access_token", JStr "new")];
                    reply 200 []] in
  let c := request PUT "/plans/7/tasks/t1" ∅
                   (JsonBody {[ "status" := JStr "completed" ]}) in
  url (retried_request w c "new") = "/plans/7/tasks/t1".
Proof.
  intros w c.
  refine (proj1 (proj2 (interceptors_keep_the_request w c
                          (ViaApi (retried_request w c "new")) _))).
  vm_compute. apply list_elem_of_further, list_elem_of_further,
    list_elem_of_here.
Defined.

End wrapper_more.

(** ** Sessions: refresh, login, logout *)
Section sessions.
Import Api.

Implicit Types (w : World) (c : InternalAxiosRequestConfig).

(** With [token] stored under [access_token], every later request with a
    headers object carries it. *)
Lemma stored_token_is_sent w c (h : Headers) (token : string) :
  stored "access_token" w = Some token -> token <> "" ->
  headers c = Some h ->
  authorization (first_request w c) = Some ("Bearer " +:+ token).
Proof.
  unfold stored, authorization, first_request, request_interceptor,
    localStorage_getItem. simpl.
  intros -> Hne ->. destruct token; [congruence|]. simpl.
  apply lookup_insert_eq.
Qed.

(** With nothing stored under [access_token], a request leaves as it is. *)
Lemma no_token_nothing_added w c :
  stored "access_token" w = None -> first_request w c = c.
Proof.
  unfold stored, first_request, request_interceptor, localStorage_getItem.
  simpl. intros ->. reflexivity.
Qed.

(** X4.  After a 401 whose refresh is fulfilled, the new access token is
    what the storage holds and what every later request carries; the refresh
    token stays the one that was stored (a [refresh_token] in the refresh
    response is ignored) and the location is not changed. *)
Theorem refreshed_token_is_used_next w c (r body : Response.t)
    (refreshToken : string) :
  _retry c = false ->
  first_reply w c = Replied r -> Response.status r = 401 ->
  stored "refresh_token" w = Some refreshToken -> refreshToken <> "" ->
  settle (refresh_request w refreshToken) (refresh_reply w c refreshToken)
  = Fulfilled body ->
  nullish (Response.data body) = false ->
  let token := to_string (field "access_token" (Response.data body)) in
  let w' := fst (api w c) in
  stored "access_token" w' = Some token /\
  stored "refresh_token" w' = Some refreshToken /\
  location_href w' = location_href w /\
  forall c2 (h : Headers),
    headers c2 = Some h -> token <> "" ->
    authorization (first_request w' c2) = Some ("Bearer " +:+ token).
Proof.
  intros Hun Hrep H401 Hrt Hne Hok Hnull token w'.
  destruct (api_course w c) as (_ & _ & Hcourse). fold w' in Hcourse.
  assert (Hstored : stored "access_token" w' = Some token /\
                    stored "refresh_token" w' = Some refreshToken /\
                    location_href w' = location_href w).
  { destruct Hcourse as
      [_ Hfinal _ _ _ _
      |? _ _ _ Hnone _ _ _ _ _
      |? rt' reason _ _ _ Hrt' _ Hfails _ _ _ _ _
      |? rt' body' _ _ _ Hrt' _ Hok' _ token' again _ _ Hitems _ Hhref];
      unfold stored in *.
    - specialize (Hfinal r Hrep H401). congruence.
    - destruct Hnone as [Hn|Hn]; rewrite Hn in Hrt; congruence.
    - rewrite Hrt in Hrt'. injection Hrt' as <-. exfalso.
      unfold refresh_fails in Hfails.
      destruct Hfails as [Hf|(b & Hf & Hb & _)]; rewrite Hok in Hf;
        [discriminate|]. injection Hf as <-. congruence.
    - rewrite Hrt in Hrt'. injection Hrt' as <-.
      rewrite Hok in Hok'. injection Hok' as <-.
      rewrite Hitems. rewrite lookup_insert_eq.
      rewrite lookup_insert_ne by discriminate. auto. }
  destruct Hstored as (Ha & Hr & Hl). repeat split; try assumption.
  intros c2 h Hh Htoken. eapply stored_token_is_sent; eassumption.
Qed.

Lemma refreshed_token_is_used_next_witness :
  let w := browser {[ "access_token" := "old"; "refresh_token" := "R1" ]}
                   [reply 401 [];
                    reply 200 [("access_token", JStr "new");
                               ("refresh_token", JStr "R2")];
                    reply 200 []] in
  let w' := fst (api w (request GET "/plans/" ∅ NoBody)) in
  stored "access_token" w' = Some "new" /\
  stored "refresh_token" w' = Some "R1".
Proof.
  intros w w'.
  destruct (refreshed_token_is_used_next w (request GET "/plans/" ∅ NoBody)
              {| Response.status := 401; Response.data := JObj [] |}
              {| Response.status := 200;
                 Response.data := JObj [("access_token", JStr "new");
                                        ("refresh_token", JStr "R2")] |}
              "R1" eq_refl)
    as (Ha & Hr & _); try (vm_compute; reflexivity); try discriminate.
  split; [exact Ha|exact Hr].
Defined.

(** X5.  Once a failed refresh has ended the session, the client holds no
    token: a later request leaves without an [Authorization] header added,
    and a 401 to it starts no refresh; exactly one request is sent, the
    error is rejected and the location stays [/login]. *)
Theorem ended_session_is_not_refreshed w c (r : Response.t)
    (refreshToken : string) (reason : Thrown) c2 :
  _retry c = false ->
  first_reply w c = Replied r -> Response.status r = 401 ->
  stored "refresh_token" w = Some refreshToken -> refreshToken <> "" ->
  refresh_fails w c refreshToken reason ->
  let w' := fst (api w c) in
  first_request w' c2 = c2 /\
  sent_between w' (fst (api w' c2)) = [ViaApi c2] /\
  refreshes (sent_between w' (fst (api w' c2))) = 0%nat /\
  (forall r2, first_reply w' c2 = Replied r2 -> Response.status r2 = 401 ->
     exists e, snd (api w' c2) = Rejected (Failure e) /\
               response e = Some r2) /\
  location_href (fst (api w' c2)) = "/login".
Proof.
  intros Hun Hrep H401 Hrt Hne Hfails w'.
  destruct (api_course w c) as (_ & _ & Hcourse). fold w' in Hcourse.
  assert (Hended : stored "access_token" w' = None /\
                   stored "refresh_token" w' = None /\
                   location_href w' = "/login").
  { destruct Hcourse as
      [_ Hfinal _ _ _ _
      |? _ _ _ Hnone _ _ _ _ _
      |? rt' reason' _ _ _ Hrt' _ _ _ _ Hitems _ Hhref
      |? rt' body' _ _ _ Hrt' _ Hok' Hnull' token' again _ _ _ _ _];
      unfold stored in *.
    - specialize (Hfinal r Hrep H401). congruence.
    - destruct Hnone as [Hn|Hn]; rewrite Hn in Hrt; congruence.
    - rewrite Hitems. repeat split; [|apply lookup_delete_eq|exact Hhref].
      rewrite lookup_delete_ne by discriminate. apply lookup_delete_eq.
    - rewrite Hrt in Hrt'. injection Hrt' as <-. exfalso.
      unfold refresh_fails in Hfails.
      destruct Hfails as [Hf|(b & Hf & Hb & _)]; rewrite Hok' in Hf;
        [discriminate|]. injection Hf as <-. congruence. }
  destruct Hended as (Ha & Hr & Hl).
  pose proof (no_token_nothing_added w' c2 Ha) as Hsame.
  split; [exact Hsame|].
  destruct (api_course w' c2) as (_ & _ & Hcourse2).
  unfold stored in Hr.
  destruct Hcourse2 as
    [Hout _ Hwire _ _ Hhref
    |r2 Hrep2 _ _ _ Hout Hwire _ _ Hhref
    |? rt2 ? _ _ _ Hrt2 _ _ _ _ _ _ _
    |? rt2 ? _ _ _ Hrt2 _ _ _ ? ? _ _ _ _ _];
    try (unfold stored in Hrt2; congruence);
    rewrite (sent_between_app _ _ _ Hwire), Hsame, Hhref;
    (split; [reflexivity|]); (split; [reflexivity|]); (split; [|exact Hl]).
  - intros r2 Hr2 H2. rewrite Hout, Hsame, Hr2, (settle_401 _ _ H2).
    eexists. split; reflexivity.
  - intros r2' Hr2 H2. rewrite Hrep2 in Hr2. injection Hr2 as <-.
    rewrite Hout. eexists. split; reflexivity.
Qed.

Lemma ended_session_is_not_refreshed_witness :
  let w := browser {[ "access_token" := "old"; "refresh_token" := "R1" ]}
                   [reply 401 []; reply 401 []; reply 401 []] in
  let c := request GET "/plans/" ∅ NoBody in
  let w' := fst (api w c) in
  sent_between w' (fst (api w' c)) = [ViaApi c].
Proof.
  intros w c w'.
  refine (proj1 (proj2 (ended_session_is_not_refreshed w c
            {| Response.status := 401; Response.data := JObj [] |} "R1"
            (Failure {| config := refresh_request w "R1";
                        response := Some {| Response.status := 401;
                                            Response.data := JObj [] |} |})
            c eq_refl _ eq_refl _ _ _)));
    try (vm_compute; reflexivity); try discriminate.
  left. vm_compute. reflexivity.
Defined.

(** X6.  A login whose request is fulfilled with an object body stores the
    body's [access_token] and [refresh_token] (as strings) and hands the body
    back; from then on every request carries the new access token.  A login
    fulfilled with [null] for a body is rejected with a [TypeError] and
    stores nothing. *)
Theorem login_stores_both_tokens w (email password : string) w1
    (response : Response.t) :
  api w (request POST "/auth/login" ∅
           (JsonBody {[ "email" := JStr email; "password" := JStr password ]}))
  = (w1, Fulfilled response) ->
  let access := to_string (field "access_token" (Response.data response)) in
  let refresh := to_string (field "refresh_token" (Response.data response)) in
  let w2 := fst (authAPI.login w email password) in
  (nullish (Response.data response) = true ->
     authAPI.login w email password = (w1, Rejected TypeError)) /\
  (nullish (Response.data response) = false ->
     snd (authAPI.login w email password)
     = Fulfilled (Response.data response) /\
     stored "access_token" w2 = Some access /\
     stored "refresh_token" w2 = Some refresh /\
     wire w2 = wire w1 /\ location_href w2 = location_href w1 /\
     (forall key, key ∉ token_keys -> stored key w2 = stored key w1) /\
     forall c (h : Headers),
       headers c = Some h -> access <> "" ->
       authorization (first_request w2 c) = Some ("Bearer " +:+ access)).
Proof.
  intros Hrun access refresh w2. subst w2. unfold authAPI.login.
  rewrite Hrun. split; intros Hnull; rewrite Hnull; [reflexivity|].
  assert (Ha : stored "access_token"
                 (localStorage_setItem "refresh_token" refresh
                    (localStorage_setItem "access_token" access w1))
               = Some access).
  { unfold stored. simpl. rewrite lookup_insert_ne by discriminate.
    apply lookup_insert_eq. }
  simpl. repeat split; try reflexivity.
  - exact Ha.
  - unfold stored. simpl. apply lookup_insert_eq.
  - intros key Hkey. unfold stored. simpl.
    rewrite !lookup_insert_ne; [reflexivity|..];
      intros <-; apply Hkey;
      auto using access_token_is_token_key, refresh_token_is_token_key.
  - intros c h Hh Hne. eapply stored_token_is_sent; eassumption.
Qed.

Lemma login_stores_both_tokens_witness :
  let w := browser ∅ [reply 200 [("access_token", JStr "A1");
                                 ("refresh_token", JStr "R1")]] in
  stored "access_token" (fst (authAPI.login w "ada@example.org" "secret"))
  = Some "A1".
Proof.
  intros w.
  edestruct (login_stores_both_tokens w "ada@example.org" "secret")
    as [_ Hobject].
  - vm_compute. reflexivity.
  - exact (proj1 (proj2 (Hobject eq_refl))).
Defined.

(** X7.  A login fulfilled with an object that has no [access_token] stores
    the text [undefined] under that key, and every later request then
    carries [Bearer undefined]. *)
Theorem login_without_token_stores_undefined w (email password : string) w1
    (response : Response.t) c (h : Headers) :
  api w (request POST "/auth/login" ∅
           (JsonBody {[ "email" := JStr email; "password" := JStr password ]}))
  = (w1, Fulfilled response) ->
  nullish (Response.data response) = false ->
  field "access_token" (Response.data response) = JUndefined ->
  headers c = Some h ->
  stored "access_token" (fst (authAPI.login w email password))
  = Some "undefined" /\
  authorization (first_request (fst (authAPI.login w email password)) c)
  = Some "Bearer undefined".
Proof.
  intros Hrun Hnull Hmissing Hh. unfold authAPI.login.
  rewrite Hrun, Hnull, Hmissing.
  assert (Ha : stored "access_token"
                 (localStorage_setItem "refresh_token"
                    (to_string (field "refresh_token" (Response.data response)))
                    (localStorage_setItem "access_token"
                       (to_string JUndefined) w1))
               = Some "undefined").
  { unfold stored. simpl. rewrite lookup_insert_ne by discriminate.
    apply lookup_insert_eq. }
  split; [exact Ha|].
  apply (stored_token_is_sent _ c h "undefined" Ha); [discriminate|exact Hh].
Qed.

Lemma login_without_token_stores_undefined_witness :
  let w := browser ∅ [reply 200 [("message", JStr "ok")]] in
  authorization
    (first_request (fst (authAPI.login w "ada@example.org" "secret"))
                   (request GET "/plans/" ∅ NoBody))
  = Some "Bearer undefined".
Proof.
  intros w.
  refine (proj2 (login_without_token_stores_undefined w "ada@example.org"
                   "secret" _ _ (request GET "/plans/" ∅ NoBody)
                   (∅ ∪ instance_headers) _ _ _ eq_refl));
    [vm_compute; reflexivity|reflexivity|reflexivity].
Defined.

(** X8.  [authAPI.logout] removes the two tokens and nothing else from the
    storage; the store's [logout] leaves the same storage but for the key
    [auth-storage], under which [persist] writes the state the call leaves.
    Neither sends anything nor moves the browser; [authAPI.logout] twice is
    [authAPI.logout] once; after either, a request leaves without a token
    added.  The store's logout also drops the user, so that the landing page
    pushes the login route and the upload page renders nothing. *)
Theorem logout_ends_session {persisted : AuthStore.Stringify}
    w (state : AuthStore.AuthState) :
  let w' := authAPI.logout w in
  let out := AuthStore.logout w state in
  LocalStorage.items (localStorage (fst out))
  = <["auth-storage" := AuthStore.stringify (snd out)]>
      (LocalStorage.items (localStorage w')) /\
  LocalStorage.journal (localStorage (fst out))
  = LocalStorage.journal (localStorage w')
    ++ [LocalStorage.Written "auth-storage" (AuthStore.stringify (snd out))] /\
  LocalStorage.items (localStorage (authAPI.logout w'))
  = LocalStorage.items (localStorage w') /\
  (forall key, key ∉ token_keys -> stored key w' = stored key w) /\
  wire w' = wire w /\ location_href w' = location_href w /\
  wire (fst out) = wire w /\ location_href (fst out) = location_href w /\
  (forall c, first_request w' c = c) /\
  (forall c, first_request (fst out) c = c) /\
  AuthStore.user (snd out) = None /\
  AuthStore.isAuthenticated (snd out) = false /\
  AuthStore.isLoading (snd out) = AuthStore.isLoading state /\
  HomePage.redirect (AuthStore.isAuthenticated (snd out)) = "/login" /\
  forall page,
    UploadPage.render (AuthStore.isAuthenticated (snd out)) page = None.
Proof.
  intros w' out. subst w' out.
  unfold authAPI.logout, AuthStore.logout, AuthStore.persist. simpl.
  split; [reflexivity|]. split; [reflexivity|].
  split; [|split; [|split; [|split; [|split; [|split; [|split]]]]]];
    try reflexivity.
  - apply map_eq. intros key. rewrite !lookup_delete.
    repeat case_decide; reflexivity.
  - intros key Hkey. unfold stored. simpl.
    rewrite !lookup_delete_ne; [reflexivity|..];
      intros <-; apply Hkey;
      auto using access_token_is_token_key, refresh_token_is_token_key.
  - intros c. apply no_token_nothing_added. unfold stored. simpl.
    rewrite lookup_delete_ne by discriminate. apply lookup_delete_eq.
  - split; [|repeat split].
    intros c. apply no_token_nothing_added. unfold stored. simpl.
    rewrite lookup_insert_ne by discriminate.
    rewrite lookup_delete_ne by discriminate. apply lookup_delete_eq.
Qed.

End sessions.

(** ** The plan store and the interface store *)
Section stores_more.
Import PlanStore.

Lemma update_tasks_fmap (taskId : string) (updates : Obj) (tasks : list Task) :
  update_tasks taskId updates tasks = updated_task taskId updates <$> tasks.
Proof. reflexivity. Qed.

(** Two plans agree when [updated_plan] was applied with task functions that
    agree on every task. *)
Lemma week_ext (f g : WeekPlan.t -> WeekPlan.t) (weeks : list WeekPlan.t) :
  (forall week, f week = g week) -> f <$> weeks = g <$> weeks.
Proof. intros H. apply list_fmap_ext. intros _ week _. apply H. Qed.

Lemma update_week_id (taskId : string) (updates : Obj) (week : WeekPlan.t) :
  (forall task, task ∈ WeekPlan.tasks week ->
                updated_task taskId updates task = task) ->
  update_week taskId updates week = week.
Proof.
  intros H. destruct week as [n s e tasks notes]. unfold update_week. simpl in *.
  f_equal. rewrite update_tasks_fmap.
  induction tasks as [|task tasks IH]; [reflexivity|].
  rewrite fmap_cons. f_equal.
  - apply H, list_elem_of_here.
  - apply IH. intros t Ht. apply H, list_elem_of_further, Ht.
Qed.

Lemma updated_plan_id (taskId : string) (updates : Obj) (plan : Plan.t) :
  (forall week task,
     week ∈ StudyPlan.weeks (Plan.plan_data plan) ->
     task ∈ WeekPlan.tasks week ->
     updated_task taskId updates task = task) ->
  updated_plan taskId updates plan = plan.
Proof.
  intros H. destruct plan as [pid title desc status data created updated ver].
  destruct data as [t d weeks hours prefs meta].
  unfold updated_plan, with_plan_data, with_weeks. simpl in *.
  do 2 f_equal.
  induction weeks as [|week weeks IH]; [reflexivity|].
  rewrite fmap_cons. f_equal.
  - apply update_week_id. intros task Ht.
    apply (H week task); [apply list_elem_of_here|exact Ht].
  - apply IH. intros w0 task Hw Ht.
    apply (H w0 task); [apply list_elem_of_further, Hw|exact Ht].
Qed.

Lemma update_week_compose (id1 id2 : string) (u1 u2 : Obj) (week : WeekPlan.t) :
  update_week id2 u2 (update_week id1 u1 week)
  = {| WeekPlan.week_number := WeekPlan.week_number week;
       WeekPlan.start_date := WeekPlan.start_date week;
       WeekPlan.end_date := WeekPlan.end_date week;
       WeekPlan.tasks :=
         (fun task => updated_task id2 u2 (updated_task id1 u1 task))
           <$> WeekPlan.tasks week;
       WeekPlan.notes := WeekPlan.notes week |}.
Proof.
  unfold update_week. simpl. rewrite !update_tasks_fmap.
  rewrite <- list_fmap_compose. reflexivity.
Qed.

(** Two updates in a row act on each task as [h] when the composition of
    their task functions is [h]. *)
Lemma updated_plan_twice (id1 id2 id3 : string) (u1 u2 u3 : Obj)
    (plan : Plan.t) :
  (forall task, updated_task id2 u2 (updated_task id1 u1 task)
                = updated_task id3 u3 task) ->
  updated_plan id2 u2 (updated_plan id1 u1 plan) = updated_plan id3 u3 plan.
Proof.
  intros H. unfold updated_plan, with_plan_data, with_weeks. simpl.
  do 2 f_equal. rewrite <- list_fmap_compose.
  apply list_fmap_ext. intros _ week _. simpl.
  rewrite update_week_compose. unfold update_week. f_equal.
  rewrite update_tasks_fmap. apply list_fmap_ext. intros _ task _. apply H.
Qed.

Lemma updateTask_twice (id1 id2 id3 : string) (u1 u2 u3 : Obj)
    (state : PlanState) :
  (forall task, updated_task id2 u2 (updated_task id1 u1 task)
                = updated_task id3 u3 task) ->
  updateTask id2 u2 (updateTask id1 u1 state) = updateTask id3 u3 state.
Proof.
  intros H. rewrite !updateTask_state. simpl.
  destruct (currentPlan state) as [plan|]; simpl; [|reflexivity].
  rewrite (updated_plan_twice id1 id2 id3 u1 u2 u3 plan H). reflexivity.
Qed.

Lemma has_id_spread (taskId : string) (updates : Obj) (task : Task) :
  updates !! "id" = None ->
  has_id taskId (spread task updates) = has_id taskId task.
Proof.
  intros H. unfold has_id, spread. rewrite lookup_union_r by exact H.
  reflexivity.
Qed.

Lemma spread_spread (task u1 u2 : Obj) :
  spread (spread task u1) u2 = spread task (spread u1 u2).
Proof. unfold spread. apply (assoc_L (∪)). Qed.

Lemma spread_twice (task updates : Obj) :
  spread (spread task updates) updates = spread task updates.
Proof.
  rewrite spread_spread. unfold spread at 2.
  rewrite (idemp_L (∪) updates). reflexivity.
Qed.

(** X9.  [updateTask] is idempotent: saving the same update for the same
    task twice leaves the store as saving it once, whatever the update
    contains. *)
Theorem updateTask_idempotent (taskId : string) (updates : Obj)
    (state : PlanState) :
  updateTask taskId updates (updateTask taskId updates state)
  = updateTask taskId updates state.
Proof.
  apply updateTask_twice. intros task. unfold updated_task.
  destruct (has_id taskId task) eqn:Hid; [|rewrite Hid; reflexivity].
  destruct (has_id taskId (spread task updates)); [|reflexivity].
  apply spread_twice.
Qed.

(** X10.  [updateTask] changes nothing when no task of the current plan has
    the given id, when the update is the empty object, or when there is no
    current plan. *)
Theorem updateTask_without_effect (taskId : string) (updates : Obj)
    (state : PlanState) :
  (currentPlan state = None -> updateTask taskId updates state = state) /\
  updateTask taskId ∅ state = state /\
  (forall plan,
     currentPlan state = Some plan ->
     (forall tasks task, tasks ∈ tasks_of plan -> task ∈ tasks ->
                         has_id taskId task = false) ->
     updateTask taskId updates state = state).
Proof.
  rewrite !updateTask_state. destruct state as [current ps ss]. simpl.
  split; [intros ->; reflexivity|]. split.
  - destruct current as [plan|]; [|reflexivity]. simpl. do 2 f_equal.
    apply updated_plan_id. intros week task _ _. unfold updated_task, spread.
    destruct (has_id taskId task); [apply (left_id_L ∅ (∪))|reflexivity].
  - intros plan -> Hnone. simpl. do 2 f_equal.
    apply updated_plan_id. intros week task Hweek Htask. unfold updated_task.
    rewrite (Hnone (WeekPlan.tasks week) task); [reflexivity| |exact Htask].
    unfold tasks_of. apply list_elem_of_fmap. exists week. auto.
Qed.

(** X11.  [updateTask] keeps the shape of the plan: the plan's own fields,
    the number of weeks, every week's number, dates and notes and its number
    of tasks stay as they were, and so does the id of every task when the
    update carries no [id]. *)
Theorem updateTask_keeps_shape (taskId : string) (updates : Obj) (plan : Plan.t) :
  let plan' := updated_plan taskId updates plan in
  Plan.plan_id plan' = Plan.plan_id plan /\
  Plan.title plan' = Plan.title plan /\
  Plan.status plan' = Plan.status plan /\
  Plan.version_number plan' = Plan.version_number plan /\
  length (StudyPlan.weeks (Plan.plan_data plan'))
  = length (StudyPlan.weeks (Plan.plan_data plan)) /\
  (forall i week',
     StudyPlan.weeks (Plan.plan_data plan') !! i = Some week' ->
     exists week,
       StudyPlan.weeks (Plan.plan_data plan) !! i = Some week /\
       WeekPlan.week_number week' = WeekPlan.week_number week /\
       WeekPlan.start_date week' = WeekPlan.start_date week /\
       WeekPlan.end_date week' = WeekPlan.end_date week /\
       WeekPlan.notes week' = WeekPlan.notes week /\
       length (WeekPlan.tasks week') = length (WeekPlan.tasks week) /\
       (updates !! "id" = None ->
        forall j task',
          WeekPlan.tasks week' !! j = Some task' ->
          exists task, WeekPlan.tasks week !! j = Some task /\
                       task' !! "id" = task !! "id")).
Proof.
  intros plan'. subst plan'. simpl.
  repeat split; try reflexivity; [apply length_fmap|].
  intros i week' Hweek'. rewrite list_lookup_fmap in Hweek'.
  destruct (StudyPlan.weeks (Plan.plan_data plan) !! i) as [week|];
    [|discriminate]. injection Hweek' as <-.
  exists week. simpl. repeat split; try reflexivity.
  - unfold update_tasks. apply length_fmap.
  - intros Hid j task' Htask'. rewrite update_tasks_fmap in Htask'.
    rewrite list_lookup_fmap in Htask'.
    destruct (WeekPlan.tasks week !! j) as [task|]; [|discriminate].
    injection Htask' as <-. exists task. split; [reflexivity|].
    unfold updated_task. destruct (has_id taskId task); [|reflexivity].
    unfold spread. apply lookup_union_r, Hid.
Qed.

(** X12.  Two updates of the same task merge, the later one winning on the
    fields both carry, provided the first does not change the task's id:
    saving [u1] and then [u2] gives the store that saving
    [{ ...u1, ...u2 }] gives. *)
Theorem updateTask_merges (taskId : string) (u1 u2 : Obj) (state : PlanState) :
  u1 !! "id" = None ->
  updateTask taskId u2 (updateTask taskId u1 state)
  = updateTask taskId (spread u1 u2) state.
Proof.
  intros Hid. apply updateTask_twice. intros task. unfold updated_task.
  destruct (has_id taskId task) eqn:Ht.
  - rewrite (has_id_spread _ _ _ Hid), Ht. apply spread_spread.
  - rewrite Ht. reflexivity.
Qed.

Lemma updateTask_merges_witness :
  PlanStore.updateTask "t1" {[ "notes" := JStr "done early" ]}
    (PlanStore.updateTask "t1" {[ "status" := JStr "completed" ]}
       (planStore (sample_client ∅ [])))
  = PlanStore.updateTask "t1"
      (spread {[ "status" := JStr "completed" ]}
              {[ "notes" := JStr "done early" ]})
      (planStore (sample_client ∅ [])).
Proof.
  apply updateTask_merges. reflexivity.
Defined.

Lemma has_id_unique (id1 id2 : string) (task : Task) :
  id1 <> id2 -> has_id id1 task = true -> has_id id2 task = false.
Proof.
  unfold has_id. intros Hne.
  destruct (task !! "id") as [[| | | |s| |]|]; try discriminate.
  intros H1%bool_decide_eq_true. apply bool_decide_eq_false. congruence.
Qed.

(** X13.  Updates of two different tasks commute when neither carries an
    [id]: the store ends the same in whichever order they are saved. *)
Theorem updateTask_commutes (id1 id2 : string) (u1 u2 : Obj)
    (state : PlanState) :
  id1 <> id2 -> u1 !! "id" = None -> u2 !! "id" = None ->
  updateTask id2 u2 (updateTask id1 u1 state)
  = updateTask id1 u1 (updateTask id2 u2 state).
Proof.
  intros Hne H1 H2. rewrite !updateTask_state. simpl.
  destruct (currentPlan state) as [plan|]; simpl; [|reflexivity].
  do 2 f_equal. unfold updated_plan, with_plan_data, with_weeks. simpl.
  do 2 f_equal. rewrite <- !list_fmap_compose.
  apply list_fmap_ext. intros _ week _. simpl.
  rewrite !update_week_compose. f_equal.
  apply list_fmap_ext. intros _ task _. unfold updated_task.
  destruct (has_id id1 task) eqn:Ht1.
  - rewrite (has_id_spread _ _ _ H1), (has_id_unique id1 id2 task Hne Ht1), Ht1.
    reflexivity.
  - destruct (has_id id2 task) eqn:Ht2; rewrite ?Ht1; [|reflexivity].
    rewrite (has_id_spread _ _ _ H2), Ht1. reflexivity.
Qed.

Lemma updateTask_commutes_witness :
  PlanStore.updateTask "t2" {[ "status" := JStr "skipped" ]}
    (PlanStore.updateTask "t1" {[ "status" := JStr "completed" ]}
       (planStore (sample_client ∅ [])))
  = PlanStore.updateTask "t1" {[ "status" := JStr "completed" ]}
      (PlanStore.updateTask "t2" {[ "status" := JStr "skipped" ]}
         (planStore (sample_client ∅ []))).
Proof.
  apply updateTask_commutes; [discriminate|reflexivity|reflexivity].
Defined.

(** X14.  In the interface store [toggleSidebar] undoes itself and never
    touches the theme; [setTheme] never touches the sidebar, and of two
    themes set in a row the later one stays. *)
Theorem ui_store_toggles (state : UIStore.UIState) :
  UIStore.toggleSidebar (UIStore.toggleSidebar state) = state /\
  UIStore.theme (UIStore.toggleSidebar state) = UIStore.theme state /\
  (forall t, UIStore.sidebarOpen (UIStore.setTheme t state)
             = UIStore.sidebarOpen state) /\
  (forall t t', UIStore.setTheme t' (UIStore.setTheme t state)
                = UIStore.setTheme t' state) /\
  (forall b, UIStore.setSidebarOpen b state
             = {| UIStore.sidebarOpen := b;
                  UIStore.theme := UIStore.theme state |}).
Proof.
  destruct state as [open theme]. repeat split.
  unfold UIStore.toggleSidebar. simpl. rewrite negb_involutive. reflexivity.
Qed.

End stores_more.

(** ** The upload page, all paths *)
Section upload_more.
Import Api.

Lemma filter_keeps_others (day : string) (days : list string) (d : string) :
  d ∈ List.filter (fun x => negb (bool_decide (x = day))) days
  <-> d ∈ days /\ d <> day.
Proof.
  rewrite !list_elem_of_In, filter_In, negb_true_iff, bool_decide_eq_false.
  reflexivity.
Qed.

Lemma filter_absent (day : string) (days : list string) :
  day ∉ days ->
  List.filter (fun x => negb (bool_decide (x = day))) days = days.
Proof.
  induction days as [|d days IH]; [reflexivity|].
  rewrite not_elem_of_cons. intros [Hne Hnot]. simpl.
  rewrite bool_decide_eq_false_2 by congruence. simpl.
  f_equal. apply IH, Hnot.
Qed.

Lemma NoDup_without (day : string) (days : list string) :
  NoDup days ->
  NoDup (List.filter (fun x => negb (bool_decide (x = day))) days).
Proof.
  intros H. apply NoDup_ListNoDup, List.NoDup_filter, NoDup_ListNoDup, H.
Qed.

Lemma toggleDay_day (day : string) (page : UploadPage.State) :
  day ∈ UploadPage.selectedDays (UploadPage.toggleDay day page)
  <-> day ∉ UploadPage.selectedDays page.
Proof.
  unfold UploadPage.toggleDay, UploadPage.includes. simpl.
  case_bool_decide as Hday.
  - rewrite filter_keeps_others. tauto.
  - rewrite elem_of_app, list_elem_of_singleton. tauto.
Qed.

Lemma toggleDay_other (day d : string) (page : UploadPage.State) :
  d <> day ->
  d ∈ UploadPage.selectedDays (UploadPage.toggleDay day page)
  <-> d ∈ UploadPage.selectedDays page.
Proof.
  intros Hd. unfold UploadPage.toggleDay, UploadPage.includes. simpl.
  case_bool_decide as Hday.
  - rewrite filter_keeps_others. tauto.
  - rewrite elem_of_app, list_elem_of_singleton. tauto.
Qed.

Lemma toggleDay_NoDup (day : string) (page : UploadPage.State) :
  NoDup (UploadPage.selectedDays page) ->
  NoDup (UploadPage.selectedDays (UploadPage.toggleDay day page)).
Proof.
  intros Hnd. unfold UploadPage.toggleDay, UploadPage.includes. simpl.
  case_bool_decide as Hday.
  - apply NoDup_without, Hnd.
  - apply NoDup_app. repeat split; [exact Hnd| |apply NoDup_singleton].
    intros d Hd Hd'. apply list_elem_of_singleton in Hd'. congruence.
Qed.

(** X15.  [toggleDay] flips whether the day is selected and leaves every
    other day, and every other field of the page, as it was; a selection
    without repetitions stays without repetitions; toggling an unselected
    day twice gives the page back, and toggling a selected day twice gives
    the same selection up to order. *)
Theorem toggleDay_flips_one_day (day : string) (page : UploadPage.State) :
  let days := UploadPage.selectedDays page in
  let days' := UploadPage.selectedDays (UploadPage.toggleDay day page) in
  (day ∈ days' <-> day ∉ days) /\
  (forall d, d <> day -> (d ∈ days' <-> d ∈ days)) /\
  UploadPage.toggleDay day page = UploadPage.setSelectedDays days' page /\
  (NoDup days -> NoDup days') /\
  (day ∉ days ->
   UploadPage.toggleDay day (UploadPage.toggleDay day page) = page) /\
  (NoDup days ->
   UploadPage.selectedDays
     (UploadPage.toggleDay day (UploadPage.toggleDay day page)) ≡ₚ days).
Proof.
  intros days days'.
  split; [apply toggleDay_day|].
  split; [intros d; apply toggleDay_other|]. split; [reflexivity|].
  split; [apply toggleDay_NoDup|]. split.
  - intros Habsent. destruct page as [f u p g sid pd e hours ds].
    unfold UploadPage.toggleDay, UploadPage.setSelectedDays,
      UploadPage.includes. simpl in *. subst days.
    rewrite (bool_decide_eq_false_2 _ Habsent). simpl.
    rewrite bool_decide_eq_true_2
      by (rewrite elem_of_app, list_elem_of_singleton; auto).
    rewrite List.filter_app, (filter_absent day ds Habsent). simpl.
    rewrite bool_decide_eq_true_2 by reflexivity. simpl.
    rewrite app_nil_r. reflexivity.
  - intros Hnd. apply NoDup_Permutation; [|exact Hnd|].
    + apply toggleDay_NoDup, toggleDay_NoDup, Hnd.
    + intros d. destruct (decide (d = day)) as [->|Hd].
      * rewrite toggleDay_day, toggleDay_day.
        destruct (decide (day ∈ days)); tauto.
      * rewrite !toggleDay_other by exact Hd. reflexivity.
Qed.

(** X16.  Choosing a file, by the file input or by dropping it, takes the
    first file of the list, clears the error and changes nothing else; an
    absent or empty list changes nothing.  A chosen file puts the Upload &
    Parse button on the page, removing it brings the drop zone back. *)
Theorem choosing_a_file (files : option (list File)) (page : UploadPage.State) :
  UploadPage.handleDrop files page = UploadPage.handleFileChange files page /\
  (files = None \/ files = Some [] ->
   UploadPage.handleFileChange files page = page) /\
  (forall f rest,
     files = Some (f :: rest) ->
     UploadPage.handleFileChange files page
     = {| UploadPage.file := Some f;
          UploadPage.uploading := UploadPage.uploading page;
          UploadPage.parsing := UploadPage.parsing page;
          UploadPage.generating := UploadPage.generating page;
          UploadPage.syllabusId := UploadPage.syllabusId page;
          UploadPage.parsedData := UploadPage.parsedData page;
          UploadPage.error := JStr "";
          UploadPage.studyHours := UploadPage.studyHours page;
          UploadPage.selectedDays := UploadPage.selectedDays page |} /\
     (UploadPage.upload_card
        <$> UploadPage.render true (UploadPage.handleFileChange files page))
     = Some (UploadPage.Chosen (name f) (UploadPage.uploading page)
                               (UploadPage.uploading page)
                               (UploadPage.parsing page)) /\
     (UploadPage.error_banner
        <$> UploadPage.render true (UploadPage.handleFileChange files page))
     = Some None /\
     (UploadPage.upload_card
        <$> UploadPage.render true
              (UploadPage.setFile None
                 (UploadPage.handleFileChange files page)))
     = Some UploadPage.DropZone).
Proof.
  split; [reflexivity|]. split.
  - intros [->| ->]; reflexivity.
  - intros f rest ->. repeat split.
Qed.

(** X17.  Without a truthy syllabus id ([null] before any upload, or an id
    of 0) the page shows no preferences card and [handleGeneratePlan] returns
    at once: client and page are untouched and nothing is sent. *)
Theorem no_syllabus_no_plan {plan_cast : Cast Plan.t}
    (c : Client) (page : UploadPage.State) :
  truthy (UploadPage.syllabusId page) = false ->
  UploadPage.handleGeneratePlan c page = (c, page) /\
  sent_between (world c) (world (fst (UploadPage.handleGeneratePlan c page)))
  = [] /\
  (UploadPage.generate_button_disabled <$> UploadPage.render true page)
  = Some None.
Proof.
  intros Hid.
  assert (Hrun : UploadPage.handleGeneratePlan c page = (c, page)).
  { unfold UploadPage.handleGeneratePlan. rewrite Hid. reflexivity. }
  rewrite Hrun. split; [reflexivity|]. split.
  - unfold sent_between. simpl. apply drop_all.
  - unfold UploadPage.render. simpl. rewrite Hid. reflexivity.
Qed.

Lemma no_syllabus_no_plan_witness :
  let page := UploadPage.setSyllabusId (JNum 0) UploadPage.initial in
  @UploadPage.handleGeneratePlan blank_plan (sample_client ∅ []) page
  = (sample_client ∅ [], page).
Proof.
  intros page.
  exact (proj1 (@no_syllabus_no_plan blank_plan (sample_client ∅ []) page
                  eq_refl)).
Defined.

End upload_more.

(** ** Handlers, every outcome *)
Section handlers_more.
Import Api.

(** A call sends at least its own request and at most three requests. *)
Lemma api_sends (w : World) (c : InternalAxiosRequestConfig) :
  exists requests,
    wire (fst (api w c)) = wire w ++ requests /\
    (1 <= length requests <= 3)%nat.
Proof.
  destruct (api_course w c) as (_ & _ & Hcourse).
  destruct Hcourse as
    [_ _ Hw _ _ _
    |? _ _ _ _ _ Hw _ _ _
    |? ? ? _ _ _ _ _ _ _ Hw _ _ _
    |? ? ? _ _ _ _ _ _ _ ? ? _ Hw _ _ _];
    eexists; (split; [exact Hw|simpl; lia]).
Qed.

Lemma data_of_outcome (outcome : World * Settled Response.t) :
  snd (data_of outcome)
  = match snd outcome with
    | Fulfilled response => Fulfilled (Response.data response)
    | Rejected reason => Rejected reason
    end.
Proof. destruct outcome as [w [r|e]]; reflexivity. Qed.

(** X18.  Whatever the server answers, [handleUpload] with a file chosen
    ends with [uploading] and [parsing] cleared, keeps the file, the
    preferences and [generating], never touches the plans, the current plan
    or the router, and sends between one and six requests.  The error it
    leaves is settled by the outcome: the detail of the rejection, or
    [Upload failed] when there is none, if the upload or the listing is
    rejected; [Upload failed] if either is fulfilled without a body; the
    empty string otherwise. *)
Theorem handleUpload_every_outcome {syllabi_cast : Cast (list Syllabus.t)}
    (c : Client) (page : UploadPage.State) (f : File) :
  UploadPage.file page = Some f ->
  let c' := fst (UploadPage.handleUpload c page) in
  let page' := snd (UploadPage.handleUpload c page) in
  UploadPage.uploading page' = false /\
  UploadPage.parsing page' = false /\
  UploadPage.file page' = Some f /\
  UploadPage.generating page' = UploadPage.generating page /\
  UploadPage.studyHours page' = UploadPage.studyHours page /\
  UploadPage.selectedDays page' = UploadPage.selectedDays page /\
  PlanStore.currentPlan (planStore c') = PlanStore.currentPlan (planStore c) /\
  PlanStore.plans (planStore c') = PlanStore.plans (planStore c) /\
  pushed c' = pushed c /\
  UploadPage.error page'
  = match syllabusAPI.upload (world c) f with
    | (_, Rejected err) => message_of err "Upload failed"
    | (w, Fulfilled response) =>
        if nullish response then JStr "Upload failed"
        else
          match snd (syllabusAPI.getAll w) with
          | Rejected err => message_of err "Upload failed"
          | Fulfilled syllabiRes =>
              if nullish syllabiRes then JStr "Upload failed" else JStr ""
          end
    end /\
  exists requests,
    wire (world c') = wire (world c) ++ requests /\
    (1 <= length requests <= 6)%nat.
Proof.
  intros Hfile c' page'. subst c' page'. unfold UploadPage.handleUpload.
  rewrite Hfile. unfold syllabusAPI.upload, syllabusAPI.getAll.
  set (post := request POST "/syllabus/upload" _ _).
  destruct (api_sends (world c) post) as (l1 & Hw1 & Hl1).
  destruct (api (world c) post) as [w1 [response|err]]; simpl in *.
  - destruct (nullish (Response.data response)); simpl.
    + repeat split; try assumption; eauto.
      exists l1. split; [exact Hw1|lia].
    + set (get := request GET "/syllabus/" _ _).
      destruct (api_sends w1 get) as (l2 & Hw2 & Hl2).
      destruct (api w1 get) as [w2 [listing|err]]; simpl in *.
      * destruct (nullish (Response.data listing)); simpl;
          repeat split; try assumption; eauto;
          exists (l1 ++ l2); rewrite Hw2, Hw1, <- app_assoc, length_app;
          (split; [reflexivity|lia]).
      * repeat split; try assumption; eauto.
        exists (l1 ++ l2). rewrite Hw2, Hw1, <- app_assoc, length_app.
        split; [reflexivity|lia].
  - repeat split; try assumption; eauto.
    exists l1. split; [exact Hw1|lia].
Qed.

Lemma handleUpload_every_outcome_witness :
  let c := sample_client ∅ [reply 200 [("syllabus_id", JNum 3)]; NetworkError] in
  let page := UploadPage.setFile (Some sample_file) UploadPage.initial in
  UploadPage.uploading (snd (@UploadPage.handleUpload no_syllabi c page))
  = false.
Proof.
  intros c page.
  exact (proj1 (@handleUpload_every_outcome no_syllabi c page sample_file
                  eq_refl)).
Defined.

(** X19.  When both requests of [handleUpload] are fulfilled with objects,
    the page takes the response's [syllabus_id] and [parsed_data], the store
    takes the listed syllabi (none when the listing has no [syllabi]), the
    error is empty and no banner is shown; the preferences card appears
    exactly when the syllabus id is truthy. *)
Theorem handleUpload_fulfilled {syllabi_cast : Cast (list Syllabus.t)}
    (c : Client) (page : UploadPage.State) (f : File) (w1 w2 : World)
    (response listing : Json) :
  UploadPage.file page = Some f ->
  syllabusAPI.upload (world c) f = (w1, Fulfilled response) ->
  nullish response = false ->
  syllabusAPI.getAll w1 = (w2, Fulfilled listing) ->
  nullish listing = false ->
  let page' :=
    {| UploadPage.file := Some f;
       UploadPage.uploading := false;
       UploadPage.parsing := false;
       UploadPage.generating := UploadPage.generating page;
       UploadPage.syllabusId := field "syllabus_id" response;
       UploadPage.parsedData := field "parsed_data" response;
       UploadPage.error := JStr "";
       UploadPage.studyHours := UploadPage.studyHours page;
       UploadPage.selectedDays := UploadPage.selectedDays page |} in
  UploadPage.handleUpload c page
  = ({| world := w2;
        planStore :=
          {| PlanStore.currentPlan := PlanStore.currentPlan (planStore c);
             PlanStore.plans := PlanStore.plans (planStore c);
             PlanStore.syllabi :=
               cast (or_else (field "syllabi" listing) (JArr [])) |};
        pushed := pushed c |}, page') /\
  (field "syllabi" listing = JUndefined ->
   PlanStore.syllabi (planStore (fst (UploadPage.handleUpload c page)))
   = cast (JArr [])) /\
  (UploadPage.error_banner <$> UploadPage.render true page') = Some None /\
  (is_Some (UploadPage.render true page'
              ≫= UploadPage.generate_button_disabled)
   <-> truthy (field "syllabus_id" response) = true).
Proof.
  intros Hfile Hup Hobj Hall Hlist page'.
  assert (Hrun : UploadPage.handleUpload c page
                 = ({| world := w2;
                       planStore :=
                         {| PlanStore.currentPlan :=
                              PlanStore.currentPlan (planStore c);
                            PlanStore.plans := PlanStore.plans (planStore c);
                            PlanStore.syllabi :=
                              cast (or_else (field "syllabi" listing)
                                            (JArr [])) |};
                       pushed := pushed c |}, page')).
  { unfold UploadPage.handleUpload. rewrite Hfile, Hup, Hobj.
    cbn [world with_world]. rewrite Hall, Hlist.
    subst page'. simpl. rewrite <- ?Hfile. reflexivity. }
  rewrite Hrun. split; [reflexivity|]. split; [|split].
  - intros ->. reflexivity.
  - reflexivity.
  - unfold UploadPage.render. simpl.
    destruct (truthy (field "syllabus_id" response)); simpl.
    + split; [reflexivity|]. intros _. eexists. reflexivity.
    + split; [|discriminate]. intros H. destruct (is_Some_None H).
Qed.

Lemma handleUpload_fulfilled_witness :
  let c := sample_client ∅ [reply 200 [("syllabus_id", JNum 3);
                                       ("parsed_data", JObj [])];
                            reply 200 []] in
  let page := UploadPage.setFile (Some sample_file) UploadPage.initial in
  UploadPage.syllabusId (snd (@UploadPage.handleUpload no_syllabi c page))
  = JNum 3.
Proof.
  intros c page.
  edestruct (@handleUpload_fulfilled no_syllabi c page sample_file)
    as [Hrun _].
  - reflexivity.
  - vm_compute. reflexivity.
  - reflexivity.
  - vm_compute. reflexivity.
  - reflexivity.
  - rewrite Hrun. reflexivity.
Defined.

(** X20.  [handleGeneratePlan] posts the syllabus id with the two
    preferences to [/plans/generate]; when that is fulfilled, the plan is put
    in front of the store's plans, the current plan is left as it is, the
    dashboard route is pushed and the page ends with [generating] cleared and
    an empty error. *)
Theorem handleGeneratePlan_fulfilled {plan_cast : Cast Plan.t}
    (c : Client) (page : UploadPage.State) (w1 : World) (plan : Json) :
  truthy (UploadPage.syllabusId page) = true ->
  plansAPI.generate (world c) (UploadPage.syllabusId page)
    {[ "study_hours_per_day" := JNum (UploadPage.studyHours page);
       "study_days" := JArr (JStr <$> UploadPage.selectedDays page) ]}
  = (w1, Fulfilled plan) ->
  UploadPage.handleGeneratePlan c page
  = ({| world := w1;
        planStore :=
          {| PlanStore.currentPlan := PlanStore.currentPlan (planStore c);
             PlanStore.plans := cast plan :: PlanStore.plans (planStore c);
             PlanStore.syllabi := PlanStore.syllabi (planStore c) |};
        pushed := pushed c ++ ["/dashboard"] |},
     {| UploadPage.file := UploadPage.file page;
        UploadPage.uploading := UploadPage.uploading page;
        UploadPage.parsing := UploadPage.parsing page;
        UploadPage.generating := false;
        UploadPage.syllabusId := UploadPage.syllabusId page;
        UploadPage.parsedData := UploadPage.parsedData page;
        UploadPage.error := JStr "";
        UploadPage.studyHours := UploadPage.studyHours page;
        UploadPage.selectedDays := UploadPage.selectedDays page |}) /\
  exists sent rest (body : Obj),
    wire w1 = wire (world c) ++ ViaApi sent :: rest /\
    method sent = POST /\ url sent = "/plans/generate" /\
    data sent = JsonBody body /\
    body !! "syllabus_id" = Some (UploadPage.syllabusId page) /\
    body !! "study_hours_per_day" = Some (JNum (UploadPage.studyHours page)) /\
    body !! "study_days"
    = Some (JArr (JStr <$> UploadPage.selectedDays page)) /\
    forall key, is_Some (body !! key) ->
      key ∈ ["syllabus_id"; "study_hours_per_day"; "study_days"].
Proof.
  intros Hid Hgen. split.
  - unfold UploadPage.handleGeneratePlan. rewrite Hid.
    cbn [negb UploadPage.handleGeneratePlan_start UploadPage.setError
         UploadPage.setGenerating UploadPage.syllabusId
         UploadPage.studyHours UploadPage.selectedDays].
    rewrite Hgen. reflexivity.
  - unfold plansAPI.generate in Hgen.
    set (post := request POST "/plans/generate" _ _) in Hgen.
    destruct (api_wire (world c) post) as (rest & Hwire).
    pose proof (request_interceptor_keeps post (world c)) as (Hm & Hu & Hd & _).
    cbn zeta in Hm, Hu, Hd. fold (first_request (world c) post) in Hm, Hu, Hd.
    assert (Hw1 : fst (api (world c) post) = w1).
    { rewrite <- (data_of_world (api (world c) post)), Hgen. reflexivity. }
    rewrite Hw1 in Hwire.
    eexists _, rest, _. split; [exact Hwire|].
    split; [exact Hm|]. split; [exact Hu|]. split; [exact Hd|].
    unfold spread. repeat split.
    intros key [v Hv]. apply lookup_union_Some_raw in Hv.
    rewrite !elem_of_cons.
    destruct Hv as [Hv|[_ Hv]].
    + apply lookup_insert_Some in Hv as [[<- _]|[_ Hv]]; [auto|].
      apply lookup_singleton_Some in Hv as [<- _]. auto.
    + apply lookup_singleton_Some in Hv as [<- _]. auto.
Qed.

Lemma handleGeneratePlan_fulfilled_witness :
  let c := sample_client ∅ [reply 201 [("plan_id", JNum 9)]] in
  let page := UploadPage.setSyllabusId (JNum 3) UploadPage.initial in
  pushed (fst (@UploadPage.handleGeneratePlan blank_plan c page))
  = ["/dashboard"].
Proof.
  intros c page.
  edestruct (@handleGeneratePlan_fulfilled blank_plan c page) as [Hrun _].
  - reflexivity.
  - vm_compute. reflexivity.
  - rewrite Hrun. reflexivity.
Defined.

End handlers_more.

(** ** The dashboard and the task modal *)
Section dashboard_more.
Import Api.

(** X21.  [handleTaskSave] without a current plan does nothing and sends
    nothing.  With one, whatever the server answers, the store ends with the
    update applied, [updatingTask] is cleared, the router and the rest of
    the page are untouched; [progress] is replaced only when both the PUT
    and the progress request are fulfilled, and a rejected PUT is not
    followed by a progress request. *)
Theorem handleTaskSave_every_outcome (c : Client) (page : DashboardPage.State)
    (taskId : string) (updates : Obj) :
  let c' := fst (DashboardPage.handleTaskSave c page taskId updates) in
  let page' := snd (DashboardPage.handleTaskSave c page taskId updates) in
  (PlanStore.currentPlan (planStore c) = None -> c' = c /\ page' = page) /\
  (forall plan,
     PlanStore.currentPlan (planStore c) = Some plan ->
     let put := plansAPI.updateTask (world c) (Plan.plan_id plan) taskId
                                    updates in
     let get := plansAPI.getProgress (fst put) (Plan.plan_id plan) in
     planStore c' = PlanStore.updateTask taskId updates (planStore c) /\
     pushed c' = pushed c /\
     DashboardPage.updatingTask page' = None /\
     DashboardPage.loading page' = DashboardPage.loading page /\
     DashboardPage.selectedTask page' = DashboardPage.selectedTask page /\
     DashboardPage.isModalOpen page' = DashboardPage.isModalOpen page /\
     (forall reason, snd put = Rejected reason ->
        world c' = fst put /\
        DashboardPage.progress page' = DashboardPage.progress page) /\
     (forall saved reason, snd put = Fulfilled saved ->
        snd get = Rejected reason ->
        world c' = fst get /\
        DashboardPage.progress page' = DashboardPage.progress page) /\
     (forall saved prog, snd put = Fulfilled saved ->
        snd get = Fulfilled prog ->
        world c' = fst get /\ DashboardPage.progress page' = prog)).
Proof.
  intros c' page'. subst c' page'. unfold DashboardPage.handleTaskSave.
  split.
  - intros ->. auto.
  - intros plan Hplan. cbv zeta. rewrite Hplan. simpl.
    destruct (plansAPI.updateTask (world c) (Plan.plan_id plan) taskId updates)
      as [w1 [saved|reason]]; simpl.
    + destruct (plansAPI.getProgress w1 (Plan.plan_id plan))
        as [w2 [prog|reason]]; simpl;
        repeat split; try discriminate; try congruence.
    + repeat split; try discriminate; congruence.
Qed.

Lemma handleTaskSave_state (c : Client) (page : DashboardPage.State)
    (taskId : string) (updates : Obj) :
  DashboardPage.selectedTask
    (snd (DashboardPage.handleTaskSave c page taskId updates))
  = DashboardPage.selectedTask page /\
  (forall plan,
     PlanStore.currentPlan (planStore c) = Some plan ->
     planStore (fst (DashboardPage.handleTaskSave c page taskId updates))
     = PlanStore.updateTask taskId updates (planStore c)) /\
  (PlanStore.currentPlan (planStore c) = None ->
   fst (DashboardPage.handleTaskSave c page taskId updates) = c).
Proof.
  unfold DashboardPage.handleTaskSave.
  destruct (PlanStore.currentPlan (planStore c)) as [plan|] eqn:Hplan; simpl.
  - destruct (plansAPI.updateTask (world c) (Plan.plan_id plan) taskId updates)
      as [w1 [saved|reason]]; simpl.
    + destruct (plansAPI.getProgress w1 (Plan.plan_id plan))
        as [w2 [prog|reason]]; simpl;
        repeat split; intros; congruence.
    + repeat split; intros; congruence.
  - repeat split; intros; congruence.
Qed.

(** X22.  Saving from the task modal always closes it and clears [saving],
    whether the server accepted the update, rejected it or there was no
    current plan at all; the form keeps its values, the selected task stays
    selected, and with a current plan the store holds the form's update. *)
Theorem modal_save_always_closes (taskId : string) (c : Client)
    (page : DashboardPage.State) (modal : TaskModal.State) (task : Task) :
  let clicked := DashboardPage.handleTaskClick task page in
  let after := TaskModal.handleSave taskId c clicked modal in
  DashboardPage.isModalOpen clicked = true /\
  DashboardPage.isModalOpen (snd (fst after)) = false /\
  DashboardPage.selectedTask (snd (fst after)) = Some task /\
  snd after = TaskModal.setSaving false modal /\
  TaskModal.saving (snd after) = false /\
  (forall plan,
     PlanStore.currentPlan (planStore c) = Some plan ->
     planStore (fst (fst after))
     = PlanStore.updateTask taskId (TaskModal.updates modal) (planStore c)) /\
  (PlanStore.currentPlan (planStore c) = None -> fst (fst after) = c).
Proof.
  intros clicked after. subst after. unfold TaskModal.handleSave.
  pose proof (handleTaskSave_state c clicked taskId
                (TaskModal.updates (TaskModal.setSaving true modal))) as Hsave.
  destruct (DashboardPage.handleTaskSave c clicked taskId
              (TaskModal.updates (TaskModal.setSaving true modal)))
    as [c' page'].
  simpl in *. destruct Hsave as (Hsel & Hstore & Hnone).
  repeat split; assumption.
Qed.

Lemma updated_plan_task (taskId : string) (updates : Obj) (plan : Plan.t)
    (i j : nat) (week : WeekPlan.t) (task : Task) :
  StudyPlan.weeks (Plan.plan_data plan) !! i = Some week ->
  WeekPlan.tasks week !! j = Some task ->
  exists week',
    StudyPlan.weeks (Plan.plan_data (updated_plan taskId updates plan)) !! i
    = Some week' /\
    WeekPlan.tasks week' !! j = Some (updated_task taskId updates task).
Proof.
  intros Hweek Htask. simpl. rewrite list_lookup_fmap, Hweek. simpl.
  eexists. split; [reflexivity|]. simpl. unfold PlanStore.update_tasks.
  rewrite list_lookup_fmap, Htask. reflexivity.
Qed.

(** X23.  The modal's form does not follow the task it is shown for: it
    starts from the values it was mounted with, which on the dashboard is
    before any task is selected.  Saving without touching the form therefore
    sets every task with the given id to [pending] and overwrites its actual
    duration, difficulty and notes with [undefined] in the store, leaving
    the task's other fields alone. *)
Theorem untouched_modal_resets_task (taskId : string) (c : Client)
    (page : DashboardPage.State) (plan : Plan.t) :
  PlanStore.currentPlan (planStore c) = Some plan ->
  let after := TaskModal.handleSave taskId c page (TaskModal.initial None) in
  exists plan',
    PlanStore.currentPlan (planStore (fst (fst after))) = Some plan' /\
    forall i j week task,
      StudyPlan.weeks (Plan.plan_data plan) !! i = Some week ->
      WeekPlan.tasks week !! j = Some task ->
      PlanStore.has_id taskId task = true ->
      exists week' task',
        StudyPlan.weeks (Plan.plan_data plan') !! i = Some week' /\
        WeekPlan.tasks week' !! j = Some task' /\
        task' !! "status" = Some (JStr "pending") /\
        task' !! "actual_duration_minutes" = Some JUndefined /\
        task' !! "difficulty" = Some JUndefined /\
        task' !! "notes" = Some JUndefined /\
        forall key,
          key ∉ ["status"; "actual_duration_minutes"; "difficulty"; "notes"] ->
          task' !! key = task !! key.
Proof.
  intros Hplan after. subst after. unfold TaskModal.handleSave.
  pose proof (handleTaskSave_state c page taskId
                (TaskModal.updates
                   (TaskModal.setSaving true (TaskModal.initial None))))
    as (_ & Hstore & _).
  specialize (Hstore plan Hplan).
  destruct (DashboardPage.handleTaskSave c page taskId _) as [c' page'].
  simpl in Hstore. cbn [fst snd]. rewrite Hstore, updateTask_state, Hplan.
  eexists. split; [reflexivity|].
  intros i j week task Hweek Htask Hid.
  destruct (updated_plan_task taskId
              (TaskModal.updates
                 (TaskModal.setSaving true (TaskModal.initial None)))
              plan i j week task Hweek Htask) as (week' & Hweek' & Htask').
  exists week'. eexists. split; [exact Hweek'|]. split; [exact Htask'|].
  unfold updated_task. rewrite Hid.
  destruct (spread_updates task
              (TaskModal.updates
                 (TaskModal.setSaving true (TaskModal.initial None))))
    as [Hset Hkeep].
  repeat split; try (apply Hset; reflexivity).
  intros key Hkey. apply Hkeep.
  rewrite !not_elem_of_cons in Hkey. destruct Hkey as (? & ? & ? & ? & _).
  unfold TaskModal.updates.
  rewrite !lookup_insert_ne by congruence.
  apply lookup_singleton_ne. congruence.
Qed.

Lemma untouched_modal_resets_task_witness :
  let c := sample_client ∅ [reply 200 []; reply 200 []] in
  let c' := fst (fst (TaskModal.handleSave "t1" c sample_dashboard
                        (TaskModal.initial None))) in
  exists plan', PlanStore.currentPlan (planStore c') = Some plan'.
Proof.
  intros c c'.
  destruct (untouched_modal_resets_task "t1" c sample_dashboard sample_plan
              eq_refl) as (plan' & Hplan' & _).
  exists plan'. exact Hplan'.
Defined.

End dashboard_more.
